(** * uEagle: response normalisation and history queries of the EAGLE client

    A shallow embedding of [custom_components/rainforest_eagle_dev/uEagle.py].

    Python objects are modelled by the inductive type [value]; a [dict] is an
    association list in insertion order (the order [d.values()] iterates in),
    exceptions are the left summand of [result].  The functions mutate their
    argument in place and return [None]; the embedding returns the mutated
    object, and an exception discards it (the only caller, [post_cmd_final],
    does not catch anything raised by [process_data]).

    Floating point arithmetic, [time.localtime] and [sys.platform] are not
    code of this module: they are the fields of a [runtime] the development is
    parametrised by; [json.loads] and the HTTP server are those of a [host]. *)

From Stdlib Require Import ZArith List String Ascii Bool Lia QArith Qround.
Import ListNotations.
Local Open Scope string_scope.
Local Open Scope Z_scope.

(** ** Exceptions and the error monad *)

Inductive exn : Type :=
| KeyError (key : string)
| TypeError
| ValueError (msg : string)
| AttributeError
| StructError
| OverflowError
| ZeroDivisionError
| OSError
| HTTPError (status : Z).

Inductive result (A : Type) : Type :=
| Ok (a : A)
| Raise (e : exn).
Arguments Ok {A} a.
Arguments Raise {A} e.

Definition bind {A B : Type} (c : result A) (k : A -> result B) : result B :=
  match c with
  | Ok a => k a
  | Raise e => Raise e
  end.

Notation "x <- c ;; k" := (bind c (fun x => k))
  (at level 61, c at next level, right associativity).

Definition or_raise {A : Type} (e : exn) (o : option A) : result A :=
  match o with
  | Some a => Ok a
  | None => Raise e
  end.

Definition succeeds {A : Type} (r : result A) : Prop := exists a, r = Ok a.
Definition raises {A : Type} (r : result A) : Prop := exists e, r = Raise e.
Definition never {A : Type} (e : exn) (r : result A) : Prop := r <> Raise e.

(** ** [int(s, 0)] on a string

    The text is an ASCII string.  The steps are those of CPython's
    [PyLong_FromString] with base 0: leading white space, a sign, a base
    prefix followed by at most one underscore, digits separated by single
    underscores, trailing white space.  A decimal literal with a leading zero
    is accepted only if its value is zero.  [None] is [ValueError]. *)

Definition is_space (c : ascii) : bool :=
  let n := Z.of_nat (nat_of_ascii c) in
  ((9 <=? n) && (n <=? 13)) || (n =? 32).

Definition digit_value (c : ascii) : option Z :=
  let n := Z.of_nat (nat_of_ascii c) in
  if (48 <=? n) && (n <=? 57) then Some (n - 48)
  else if (97 <=? n) && (n <=? 122) then Some (n - 87)
  else if (65 <=? n) && (n <=? 90) then Some (n - 55)
  else None.

Definition is_underscore (c : ascii) : bool := Ascii.eqb c "_".

Fixpoint lstrip (s : string) : string :=
  match s with
  | String c s' => if is_space c then lstrip s' else s
  | EmptyString => EmptyString
  end.

Fixpoint all_space (s : string) : bool :=
  match s with
  | String c s' => is_space c && all_space s'
  | EmptyString => true
  end.

(** The scanning loop: [prev_us] is "the previous character was an
    underscore", [ndig] counts the digits, [acc] is the value so far.  It
    stops at the first character that is neither a digit of the base nor an
    underscore and returns the rest of the text. *)
Fixpoint scan_digits (base : Z) (prev_us : bool) (ndig : Z) (acc : Z) (s : string)
  : option (Z * Z * string) :=
  match s with
  | String c s' =>
      if is_underscore c then
        if prev_us then None else scan_digits base true ndig acc s'
      else
        match digit_value c with
        | Some v =>
            if v <? base then scan_digits base false (ndig + 1) (acc * base + v) s'
            else if prev_us then None else Some (acc, ndig, s)
        | None => if prev_us then None else Some (acc, ndig, s)
        end
  | EmptyString => if prev_us then None else Some (acc, ndig, s)
  end.

Definition split_sign (s : string) : bool * string :=
  match s with
  | String "+" r => (false, r)
  | String "-" r => (true, r)
  | _ => (false, s)
  end.

Definition skip_underscore (s : string) : string :=
  match s with
  | String "_" r => r
  | _ => s
  end.

(** Base detection: the base, whether the literal must be zero (a decimal
    literal that starts with 0), and the text after the prefix. *)
Definition split_base (s : string) : Z * bool * string :=
  match s with
  | String "0" r =>
      match r with
      | String "x" r' | String "X" r' => (16, false, skip_underscore r')
      | String "o" r' | String "O" r' => (8, false, skip_underscore r')
      | String "b" r' | String "B" r' => (2, false, skip_underscore r')
      | _ => (10, true, s)
      end
  | _ => (10, false, s)
  end.

Definition starts_with_underscore (s : string) : bool :=
  match s with
  | String c _ => is_underscore c
  | EmptyString => false
  end.

(** [max_str_digits] is [sys.get_int_max_str_digits()]: 0 disables the limit
    on decimal literals, which the bases 2, 8 and 16 never have. *)
Definition parse_int (max_str_digits : Z) (s : string) : option Z :=
  let '(neg, s1) := split_sign (lstrip s) in
  let '(base, zero_only, s2) := split_base s1 in
  if starts_with_underscore s2 then None
  else
    match scan_digits base false 0 0 s2 with
    | None => None
    | Some (n, ndig, rest) =>
        if ndig =? 0 then None
        else if negb (all_space rest) then None
        else if (base =? 10) && (0 <? max_str_digits) && (max_str_digits <? ndig) then None
        else if zero_only && negb (n =? 0) then None
        else Some (if neg then - n else n)
    end.

(** ** [hex(n)] *)

Definition hex_digit (v : Z) : ascii :=
  if v <? 10 then ascii_of_nat (Z.to_nat (48 + v))
  else ascii_of_nat (Z.to_nat (87 + v)).

Fixpoint hex_digits (fuel : nat) (n : Z) (tail : string) : string :=
  let tail' := String (hex_digit (n mod 16)) tail in
  match fuel with
  | O => tail'
  | S fuel' => if n / 16 =? 0 then tail' else hex_digits fuel' (n / 16) tail'
  end.

Definition hex_abs (n : Z) : string :=
  "0x" ++ hex_digits (Z.to_nat (Z.log2 n)) n "".

Definition hex (n : Z) : string :=
  if n <? 0 then "-" ++ hex_abs (- n) else hex_abs n.

(** ** [struct.pack('>I', n)] and [struct.unpack('>i', b)]

    Four bytes, most significant first.  [pack] refuses an argument that is
    not an unsigned 32-bit integer with [struct.error]. *)

Definition pack_I (n : Z) : result (list Z) :=
  if (n <? 0) || (4294967295 <? n) then Raise StructError
  else Ok [ Z.land (Z.shiftr n 24) 255;
            Z.land (Z.shiftr n 16) 255;
            Z.land (Z.shiftr n 8) 255;
            Z.land n 255 ].

Definition unpack_i (b : list Z) : result Z :=
  match b with
  | [b0; b1; b2; b3] =>
      let u := Z.lor (Z.lor (Z.lor (Z.shiftl b0 24) (Z.shiftl b1 16)) (Z.shiftl b2 8)) b3 in
      Ok (if Z.testbit u 31 then u - 4294967296 else u)
  | _ => Raise StructError
  end.

(** The two steps of lines 191-192 of the source together. *)
Definition reinterpret_signed32 (n : Z) : result Z :=
  bytes_demand <- pack_I n ;;
  unpack_i bytes_demand.

(** ** The Python runtime the module runs on

    [float] is the type of Python floats and [struct_time] that of
    [time.struct_time]; an operation that can raise [OverflowError] returns
    an [option].  [int_truediv a b] is [a / b] on two integers with [b]
    non-zero, [float_round x n] is [round(x, n)]. *)

Record runtime : Type := {
  float : Type;
  struct_time : Type;
  int_truediv : Z -> Z -> option float;
  float_of_int : Z -> option float;
  float_mul : float -> float -> float;
  float_div : float -> float -> float;
  float_pow : float -> float -> option float;
  float_is_zero : float -> bool;
  float_round : float -> Z -> option float;
  localtime : Z -> result struct_time;
  platform : string;
  max_str_digits : Z
}.

Section Normalizer.

Variable R : runtime.

#[local] Set Warnings "-register-all".

(** ** Values: what [json.loads] returns, and what normalisation stores *)

Inductive value : Type :=
| VNone
| VBool (b : bool)
| VInt (n : Z)
| VFloat (x : float R)
| VStr (s : string)
| VTime (t : struct_time R)
| VList (l : list value)
| VDict (d : list (string * value)).

Definition dict : Type := list (string * value).

(** *** Dictionary operations *)

Fixpoint lookup (k : string) (d : dict) : option value :=
  match d with
  | [] => None
  | (k', v) :: d' => if String.eqb k k' then Some v else lookup k d'
  end.

(** [k in d] *)
Definition contains (k : string) (d : dict) : bool :=
  match lookup k d with
  | Some _ => true
  | None => false
  end.

(** [d[k]] *)
Definition getitem (k : string) (d : dict) : result value :=
  or_raise (KeyError k) (lookup k d).

(** [d[k] = v]: an existing key keeps its position, a new key goes last. *)
Fixpoint setitem (k : string) (v : value) (d : dict) : dict :=
  match d with
  | [] => [(k, v)]
  | (k', v') :: d' =>
      if String.eqb k k' then (k', v) :: d' else (k', v') :: setitem k v d'
  end.

Definition remove (k : string) (d : dict) : dict :=
  filter (fun kv => negb (String.eqb k (fst kv))) d.

(** [del d[k]] *)
Definition delitem (k : string) (d : dict) : result dict :=
  if contains k d then Ok (remove k d) else Raise (KeyError k).

(** *** Numeric helpers *)

(** [int(v, 0)]: only a string can be converted with an explicit base. *)
Definition int0 (v : value) : result Z :=
  match v with
  | VStr s => or_raise (ValueError "invalid literal for int() with base 0")
                       (parse_int (max_str_digits R) s)
  | _ => Raise TypeError
  end.

(** [a / b] on two integers *)
Definition truediv (a b : Z) : result (float R) :=
  if b =? 0 then Raise ZeroDivisionError
  else or_raise OverflowError (int_truediv R a b).

(** [n * x] for an integer [n] and a float [x] *)
Definition int_times_float (n : Z) (x : float R) : result (float R) :=
  a <- or_raise OverflowError (float_of_int R n) ;;
  Ok (float_mul R a x).

(** [round(n * factor, n_dec)] *)
Definition scaled (n : Z) (factor : float R) (n_dec : Z) : result value :=
  y <- int_times_float n factor ;;
  r <- or_raise OverflowError (float_round R y n_dec) ;;
  Ok (VFloat r).

(** [p / 10**t]: the power is an integer for [t >= 0] and a float otherwise. *)
Definition div_pow10 (p t : Z) : result (float R) :=
  if 0 <=? t then truediv p (10 ^ t)
  else
    base <- or_raise OverflowError (float_of_int R 10) ;;
    e <- or_raise OverflowError (float_of_int R t) ;;
    q <- or_raise OverflowError (float_pow R base e) ;;
    a <- or_raise OverflowError (float_of_int R p) ;;
    if float_is_zero R q then Raise ZeroDivisionError
    else Ok (float_div R a q).

Definition EPOCH_DELTA : Z :=
  if String.eqb (platform R) "linux" || String.eqb (platform R) "unix"
  then 946684800 else 0.

(** ** The conversion rules *)

(** [factor], line 186 *)
Definition demand_factor (d : dict) : result (float R) :=
  mv <- getitem "Multiplier" d ;;
  m <- int0 mv ;;
  dv <- getitem "Divisor" d ;;
  dvs <- int0 dv ;;
  truediv (Z.max m 1) (Z.max dvs 1).

(** [n_dec], line 187 *)
Definition demand_n_dec (d : dict) : result Z :=
  v <- getitem "DigitsRight" d ;;
  int0 v.

(** The signed value of the [Demand] field, lines 190-192 *)
Definition decode_demand (v : value) : result Z :=
  demand <- int0 v ;;
  reinterpret_signed32 demand.

Definition convert_summation (k : string) (factor : float R) (n_dec : Z) (d : dict)
  : result dict :=
  v <- getitem k d ;;
  n <- int0 v ;;
  x <- scaled n factor n_dec ;;
  Ok (setitem k x d).

Definition delete_scaling_keys (d : dict) : result dict :=
  d <- delitem "Multiplier" d ;;
  d <- delitem "Divisor" d ;;
  d <- delitem "DigitsRight" d ;;
  d <- delitem "DigitsLeft" d ;;
  delitem "SuppressLeadingZero" d.

Definition convert_demand (d : dict) : result dict :=
  factor <- demand_factor d ;;
  n_dec <- demand_n_dec d ;;
  d <- (if contains "Demand" d then
          v <- getitem "Demand" d ;;
          new_int_demand <- decode_demand v ;;
          x <- scaled new_int_demand factor n_dec ;;
          Ok (setitem "Demand" x d)
        else
          d <- convert_summation "SummationDelivered" factor n_dec d ;;
          convert_summation "SummationReceived" factor n_dec d) ;;
  delete_scaling_keys d.

Definition convert_price (d : dict) : result dict :=
  pv <- getitem "Price" d ;;
  p <- int0 pv ;;
  tv <- getitem "TrailingDigits" d ;;
  t <- int0 tv ;;
  x <- div_pow10 p t ;;
  let d := setitem "Price" (VFloat x) d in
  cv <- getitem "Currency" d ;;
  c <- int0 cv ;;
  let d := setitem "Currency" (VInt c) d in
  delitem "TrailingDigits" d.

Definition convert_timestamp (d : dict) : result dict :=
  v <- getitem "TimeStamp" d ;;
  n <- int0 v ;;
  t <- localtime R (n + EPOCH_DELTA) ;;
  Ok (setitem "TimeStamp" (VTime t) d).

(** The rules of one record, lines 173-181, once its children are done *)
Definition apply_rules (d : dict) : result dict :=
  d <- (if contains "Multiplier" d then convert_demand d else Ok d) ;;
  d <- (if contains "Price" d then convert_price d else Ok d) ;;
  if contains "TimeStamp" d then convert_timestamp d else Ok d.

(** ** The traversal *)

Definition map_result {A B : Type} (f : A -> result B) : list A -> result (list B) :=
  fix go (l : list A) : result (list B) :=
    match l with
    | [] => Ok []
    | x :: l' =>
        y <- f x ;;
        ys <- go l' ;;
        Ok (y :: ys)
    end.

(** One value of [d.values()], lines 167-171: a dictionary is processed, every
    element of a list is processed, anything else is left alone. *)
Definition process_child (process_data : value -> result value) (v : value)
  : result value :=
  match v with
  | VDict _ => process_data v
  | VList l =>
      l' <- map_result process_data l ;;
      Ok (VList l')
  | _ => Ok v
  end.

Definition process_values (process_data : value -> result value)
  : dict -> result dict :=
  fix go (d : dict) : result dict :=
    match d with
    | [] => Ok []
    | (k, v) :: d' =>
        v' <- process_child process_data v ;;
        d'' <- go d' ;;
        Ok ((k, v') :: d'')
    end.

(** [process_data(d)]: [d.values()] exists only on a dictionary. *)
Fixpoint process_data (v : value) : result value :=
  match v with
  | VDict d =>
      d1 <- process_values process_data d ;;
      d2 <- apply_rules d1 ;;
      Ok (VDict d2)
  | _ => Raise AttributeError
  end.

End Normalizer.

Arguments VNone {R}.
Arguments VBool {R} b.
Arguments VInt {R} n.
Arguments VStr {R} s.

(** ** The client *)

Definition newline : string := String (ascii_of_nat 10) "".
Definition dquote : string := String (ascii_of_nat 34) "".

(** [s.startswith(p)] *)
Definition startswith (s p : string) : bool := String.prefix p s.

Definition TEMP_RESPONSE_FIX (s : string) : string :=
  if startswith s (dquote ++ "HistoryData" ++ dquote)
     || startswith s (dquote ++ "ScheduleList" ++ dquote)
  then "{" ++ s ++ "}"
  else s.

Definition SAFETY_ON : bool := true.

Definition ADDR_TEMPLATE (a0 a1 a2 : string) : string :=
  "http://" ++ a0 ++ ":" ++ a1 ++ "@" ++ a2.

Definition MDNS_TEMPLATE (a0 a1 : string) : string :=
  "http://" ++ a0 ++ ":" ++ a1 ++ "@eagle-" ++ a0 ++ ".local".

(** The template is a raw string: [\n] is a backslash and an [n], followed by
    the line break and the indentation of the source text. *)
Definition CMD_TOP_TEMPLATE (a0 : string) : string :=
  "<Command>\n" ++ newline ++
  "                   <Name>" ++ a0 ++ "</Name>\n" ++ newline ++
  "                   <Format>JSON</Format>".

Record request : Type := {
  req_address : string;
  req_headers : list (string * string);
  req_data : string
}.

Record response : Type := {
  status_code : Z;
  text : string
}.

(** What the client calls but does not define: [json.loads] ([None] is its
    [ValueError]) and the server behind [requests.post], which answers a
    request knowing the requests sent before it. *)
Record host (R : runtime) : Type := {
  json_loads : string -> option (value R);
  server : list request -> request -> result response
}.
Arguments json_loads {R} h s.
Arguments server {R} h log rq.

(** A computation that sends requests: the state is the list of the requests
    sent so far, oldest first; an exception leaves it as it is. *)
Definition io (A : Type) : Type := list request -> result A * list request.

Definition io_ret {A : Type} (r : result A) : io A := fun log => (r, log).

Definition io_bind {A B : Type} (c : io A) (k : A -> io B) : io B :=
  fun log =>
    match c log with
    | (Ok a, log') => k a log'
    | (Raise e, log') => (Raise e, log')
    end.

Notation "x <~ c ;; k" := (io_bind c (fun x => k))
  (at level 61, c at next level, right associativity).

Record Eagle : Type := {
  _headers : list (string * string);
  addr : string
}.

Definition Eagle_init (cloud_id install_code : string) (address : option string) : Eagle :=
  {| _headers := [("Content-Type", "application/xml")];
     addr := match address with
             | Some a => ADDR_TEMPLATE cloud_id install_code a
             | None => MDNS_TEMPLATE cloud_id install_code
             end |}.

Fixpoint render_params (kws : list (string * string)) : string :=
  match kws with
  | [] => ""
  | (k, v) :: kws' =>
      "<" ++ k ++ ">" ++ v ++ "</" ++ k ++ ">" ++ newline ++ render_params kws'
  end.

Definition make_cmd (command : string) (kws : list (string * string)) : string :=
  CMD_TOP_TEMPLATE command ++ render_params kws ++ "</Command>" ++ newline.

Section Client.

Variable R : runtime.
Variable H : host R.

Definition requests_post (address : string) (headers : list (string * string))
  (data : string) : io response :=
  fun log =>
    let rq := {| req_address := address; req_headers := headers; req_data := data |} in
    (server H log rq, (log ++ [rq])%list).

(** [response.raise_for_status()] *)
Definition raise_for_status (r : response) : result unit :=
  if (400 <=? status_code r) && (status_code r <? 600)
  then Raise (HTTPError (status_code r))
  else Ok tt.

Definition post_cmd_final (self : Eagle) (address post_data : string) : io (value R) :=
  response <~ requests_post address (_headers self) post_data ;;
  _ <~ io_ret (if negb (status_code response =? 200)
               then raise_for_status response else Ok tt) ;;
  let response_text := TEMP_RESPONSE_FIX (text response) in
  data <~ io_ret (or_raise (ValueError "Invalid JSON format: %s")
                           (json_loads H response_text)) ;;
  io_ret (process_data R data).

Definition post_cmd (self : Eagle) (command : string) (kws : list (string * string))
  : io (value R) :=
  let api_addr := addr self ++ "/cgi-bin/post_manager" in
  let post_data := make_cmd command kws in
  post_cmd_final self api_addr post_data.

(** [start_time], [end_time] and [frequency] are integers (seconds);
    [None] is the default of the two optional arguments. *)
Definition get_history_data (self : Eagle) (start_time : Z)
  (end_time frequency : option Z) : io (value R) :=
  let kw := [("StartTime", hex (start_time - EPOCH_DELTA R))] in
  let kw := match end_time with
            | Some e => (kw ++ [("EndTime", hex (e - EPOCH_DELTA R))])%list
            | None => kw
            end in
  kw <~ io_ret
          match frequency with
          | Some f =>
              if SAFETY_ON && ((65535 <? f) || (f <? 0))
              then Raise (ValueError "frequency must be between 0 and 65535 seconds")
              else Ok (kw ++ [("Frequency", hex f)])%list
          | None => Ok kw
          end ;;
  post_cmd self "get_history_data" kw.

End Client.

(** *** The local dialect and the schedule query *)

Definition LOCAL_CMD_TOP_TEMPLATE (a0 : string) : string :=
  "<LocalCommand>\n" ++ newline ++
  "                         <Name>" ++ a0 ++ "</Name>\n".

Definition make_local_cmd (command : string) (kws : list (string * string)) : string :=
  LOCAL_CMD_TOP_TEMPLATE command ++ render_params kws ++ "</LocalCommand>" ++ newline.

Definition EVENT_VALS : list string :=
  [ ""; "time"; "message"; "price"; "summation"; "demand";
    "scheduled_prices"; "profile_data"; "billing_period"; "block_period" ].

Section Queries.

Variable R : runtime.
Variable H : host R.

Definition post_local_cmd (self : Eagle) (command : string)
  (kws : list (string * string)) : io (value R) :=
  let api_addr := addr self ++ "/cgi-bin/cgi_manager" in
  let post_data := make_local_cmd command kws in
  post_cmd_final R H self api_addr post_data.

(** [None] is the default of [event]. *)
Definition get_schedule (self : Eagle) (event : option string) : io (value R) :=
  let event := match event with
               | None => ""
               | Some e => e
               end in
  _ <~ io_ret (if SAFETY_ON && negb (existsb (String.eqb event) EVENT_VALS)
               then Raise (ValueError ("'" ++ event ++ "' is not a valid event"))
               else Ok tt) ;;
  post_cmd R H self "get_schedule" [("Event", event)].

Definition get_device_list (self : Eagle) : io (value R) :=
  post_local_cmd self "get_device_list" [].

Definition get_instantaneous_demand (self : Eagle) : io (value R) :=
  post_cmd R H self "get_instantaneous_demand" [].

End Queries.

(** ** Notions the properties are stated with *)

Section Notions.

Variable R : runtime.

(** The keys [convert_demand] deletes. *)
Definition scaling_keys : list string :=
  ["Multiplier"; "Divisor"; "DigitsRight"; "DigitsLeft"; "SuppressLeadingZero"].

(** A place in a response: a chain of object keys and list positions. *)
Inductive step : Type :=
| Key (k : string)
| Index (i : nat).

Fixpoint follow (p : list step) (v : value R) : option (value R) :=
  match p with
  | [] => Some v
  | Key k :: p' =>
      match v with
      | VDict _ d =>
          match lookup R k d with
          | Some x => follow p' x
          | None => None
          end
      | _ => None
      end
  | Index i :: p' =>
      match v with
      | VList _ l =>
          match nth_error l i with
          | Some x => follow p' x
          | None => None
          end
      | _ => None
      end
  end.

(** The chain does not leave a record that has [Multiplier] through one of
    the two keys [convert_demand] deletes without reading. *)
Fixpoint survives (p : list step) (v : value R) : bool :=
  match p with
  | [] => true
  | Key k :: p' =>
      match v with
      | VDict _ d =>
          negb (contains R "Multiplier" d
                && (String.eqb k "DigitsLeft" || String.eqb k "SuppressLeadingZero"))
          && match lookup R k d with
             | Some x => survives p' x
             | None => true
             end
      | _ => true
      end
  | Index i :: p' =>
      match v with
      | VList _ l =>
          match nth_error l i with
          | Some x => survives p' x
          | None => true
          end
      | _ => true
      end
  end.

Definition is_dict (v : value R) : bool :=
  match v with
  | VDict _ _ => true
  | _ => false
  end.

Definition is_container (v : value R) : bool :=
  match v with
  | VDict _ _ | VList _ _ => true
  | _ => false
  end.

(** No record of [v], at any depth, has one of the keys [ks]. *)
Fixpoint no_key_in (ks : list string) (v : value R) : bool :=
  match v with
  | VDict _ d =>
      forallb (fun k => negb (contains R k d)) ks
      && forallb (fun kv => let '(_, x) := kv in no_key_in ks x) d
  | VList _ l => forallb (no_key_in ks) l
  | _ => true
  end.

(** Every list of [v], at any depth, holds objects only. *)
Fixpoint lists_hold_objects (v : value R) : bool :=
  match v with
  | VDict _ d => forallb (fun kv => let '(_, x) := kv in lists_hold_objects x) d
  | VList _ l => forallb (fun e => is_dict e && lists_hold_objects e) l
  | _ => true
  end.

(** Some list the traversal reaches from [v] has an element that is not an
    object: the traversal goes from a record to its values and from a list to
    its elements. *)
Fixpoint reaches_non_object (v : value R) : bool :=
  match v with
  | VDict _ d => existsb (fun kv => let '(_, x) := kv in reaches_non_object x) d
  | VList _ l => existsb (fun e => negb (is_dict e) || reaches_non_object e) l
  | _ => false
  end.

(** What a rule may do to a record: it deletes keys of [del] only, it keeps
    every value that is an object or a list and is not deleted, and what it
    stores is neither an object nor a list. *)
Definition rewritten (del : list string) (d d' : dict R) : Prop :=
  (forall k, contains R k d' = contains R k d && negb (existsb (String.eqb k) del))
  /\ (forall k x, lookup R k d = Some x -> is_container x = true ->
                  existsb (String.eqb k) del = false -> lookup R k d' = Some x)
  /\ (forall Q : string * value R -> Prop,
        (forall k v, is_container v = false -> Q (k, v)) ->
        Forall Q d -> Forall Q d').

(** [P] holds of what the traversal visits below a value of a record: the
    value itself when it is an object, its elements when it is a list. *)
Definition child_all (P : value R -> Prop) (x : value R) : Prop :=
  match x with
  | VDict _ _ => P x
  | VList _ l => Forall P l
  | _ => True
  end.

(** What [int(., 0)] refuses in a field: anything but a string. *)
Definition not_a_string (o : option (value R)) : Prop :=
  forall s, o <> Some (VStr s).

(** A dependent key of a rule whose trigger key is present is absent. *)
Definition lacks_dependent_key (d : dict R) : bool :=
  (contains R "Multiplier" d
   && (negb (contains R "Divisor" d)
       || negb (contains R "DigitsRight" d)
       || negb (contains R "DigitsLeft" d)
       || negb (contains R "SuppressLeadingZero" d)
       || (negb (contains R "Demand" d)
           && (negb (contains R "SummationDelivered" d)
               || negb (contains R "SummationReceived" d)))))
  || (contains R "Price" d
      && (negb (contains R "TrailingDigits" d) || negb (contains R "Currency" d))).

(** The keys of a record that are not in [del], in the order of the record. *)
Definition kept_keys (del : list string) (d : dict R) : list string :=
  filter (fun k => negb (existsb (String.eqb k) del)) (map fst d).

(** The keys the three rules read, write or delete. *)
Definition rule_keys : list string :=
  [ "Demand"; "SummationDelivered"; "SummationReceived";
    "Multiplier"; "Divisor"; "DigitsRight"; "DigitsLeft"; "SuppressLeadingZero";
    "Price"; "Currency"; "TrailingDigits"; "TimeStamp" ].

End Notions.

(** ** A runtime with exact arithmetic

    Floats are rationals in lowest terms and no operation overflows;
    [round] rounds half to even at the given decimal place; a power is taken
    at an integer exponent; a [struct_time] is the instant it breaks down.
    On the sample records below every quotient and product is a number a
    binary float represents exactly. *)

Definition round_half_even (y : Q) : Z :=
  let f := Qfloor y in
  match Qcompare (y - inject_Z f) (1 # 2) with
  | Lt => f
  | Gt => f + 1
  | Eq => if Z.even f then f else f + 1
  end.

Definition exact_round (x : Q) (n : Z) : Q :=
  if 0 <=? n
  then Qred (inject_Z (round_half_even (x * inject_Z (10 ^ n))) / inject_Z (10 ^ n))
  else Qred (inject_Z (round_half_even (x / inject_Z (10 ^ (- n))) * 10 ^ (- n))).

Definition exact_pow (x y : Q) : option Q :=
  match Qred y with
  | Qmake z 1 => Some (Qred (Qpower x z))
  | _ => None
  end.

Definition exact : runtime := {|
  float := Q;
  struct_time := Z;
  int_truediv := fun a b => Some (Qred (inject_Z a / inject_Z b));
  float_of_int := fun n => Some (inject_Z n);
  float_mul := fun x y => Qred (x * y);
  float_div := fun x y => Qred (x / y);
  float_pow := exact_pow;
  float_is_zero := fun x => Qeq_bool x 0;
  float_round := fun x n => Some (exact_round x n);
  localtime := fun t => Ok t;
  platform := "linux";
  max_str_digits := 4300
|}.

(** A host whose server answers every request with status 200 and an empty
    object, and whose parser knows that one text. *)
Definition quiet_host : host exact := {|
  json_loads := fun s => if String.eqb s "{}" then Some (VDict exact []) else None;
  server := fun _ _ => Ok {| status_code := 200; text := "{}" |}
|}.

Definition eagle0 : Eagle := Eagle_init "0123ab" "0123456789abcdef" None.

(** Sample records *)

Definition demand_record : dict exact :=
  [ ("Demand", VStr "0xFFFFFFFF");
    ("Multiplier", VStr "0x1");
    ("Divisor", VStr "0x4");
    ("DigitsRight", VStr "0x3");
    ("DigitsLeft", VStr "0xf");
    ("SuppressLeadingZero", VStr "Y") ].

Definition zero_scale_record : dict exact :=
  [ ("Demand", VStr "0x7");
    ("Multiplier", VStr "0x0");
    ("Divisor", VStr "0x0");
    ("DigitsRight", VStr "0x3");
    ("DigitsLeft", VStr "0xf");
    ("SuppressLeadingZero", VStr "Y") ].

Definition wide_demand_record : dict exact :=
  [ ("Demand", VStr "0x100000000");
    ("Multiplier", VStr "0x1");
    ("Divisor", VStr "0x4");
    ("DigitsRight", VStr "0x3");
    ("DigitsLeft", VStr "0xf");
    ("SuppressLeadingZero", VStr "Y") ].

Definition price_record : dict exact :=
  [ ("Price", VStr "0x3E8");
    ("Currency", VStr "0x348");
    ("TrailingDigits", VStr "0x2") ].

Definition timestamp_record : dict exact :=
  [ ("TimeStamp", VStr "0x0") ].

Definition bare_trailing_digits_record : dict exact :=
  [ ("TrailingDigits", VStr "0x2") ].

Definition no_divisor_record : dict exact :=
  [ ("Demand", VStr "0x7");
    ("Multiplier", VStr "0x1");
    ("DigitsRight", VStr "0x3");
    ("DigitsLeft", VStr "0xf");
    ("SuppressLeadingZero", VStr "Y") ].

Definition list_of_numbers_response : value exact :=
  VDict exact [ ("Readings", VList exact [ VDict exact []; VInt 3 ]) ].

Definition nested_response : value exact :=
  VDict exact [ ("Device", VList exact [ VDict exact [ ("InstantaneousDemand", VDict exact demand_record) ] ]) ].

Definition record_under_digits_left : value exact :=
  VDict exact
    [ ("Demand", VStr "0x7");
      ("Multiplier", VStr "0x1");
      ("Divisor", VStr "0x4");
      ("DigitsRight", VStr "0x3");
      ("DigitsLeft", VDict exact demand_record);
      ("SuppressLeadingZero", VStr "Y") ].

(** Hosts that answer with status 404, with status 204 and an empty object,
    and with a list at the top of the response. *)
Definition not_found_host : host exact := {|
  json_loads := fun s => if String.eqb s "{}" then Some (VDict exact []) else None;
  server := fun _ _ => Ok {| status_code := 404; text := "Not Found" |}
|}.

Definition no_content_host : host exact := {|
  json_loads := fun s => if String.eqb s "{}" then Some (VDict exact []) else None;
  server := fun _ _ => Ok {| status_code := 204; text := "{}" |}
|}.

Definition summation_record : dict exact :=
  [ ("SummationDelivered", VStr "0x100000000");
    ("SummationReceived", VStr "0x8");
    ("Multiplier", VStr "0x1");
    ("Divisor", VStr "0x4");
    ("DigitsRight", VStr "0x3");
    ("DigitsLeft", VStr "0xf");
    ("SuppressLeadingZero", VStr "Y") ].

Definition demand_and_summation_record : dict exact :=
  ("SummationDelivered", VStr "0x10") :: ("SummationReceived", VStr "0x8") :: demand_record.

Definition labelled_price_record : dict exact :=
  [ ("DeviceMacId", VStr "0xd8d5b9000000abcd");
    ("Price", VStr "0x3E8");
    ("Currency", VStr "0x348");
    ("TrailingDigits", VStr "0x2");
    ("TimeStamp", VStr "0x0") ].

Definition plain_response : value exact :=
  VDict exact
    [ ("DeviceList",
       VList exact
         [ VDict exact [ ("DeviceMacId", VStr "0xd8d5b9000000abcd");
                         ("ModelId", VStr "Z109-EAGLE") ] ]) ].

Definition leaf_place : list step :=
  [ Key "Device"; Index 0; Key "InstantaneousDemand" ].

(** * Properties *)

(** ** The error monad *)

Lemma bind_ok {A B : Type} (c : result A) (k : A -> result B) (b : B) :
  bind c k = Ok b -> exists a, c = Ok a /\ k a = Ok b.
Proof.
  destruct c as [a | e]; simpl; intros E.
  - exists a; split; [reflexivity | exact E].
  - discriminate.
Qed.

Lemma or_raise_ok {A : Type} (e : exn) (o : option A) (a : A) :
  or_raise e o = Ok a -> o = Some a.
Proof. destruct o; simpl; congruence. Qed.

Lemma raises_not_ok {A : Type} (r : result A) :
  (forall a, r <> Ok a) -> raises r.
Proof.
  destruct r as [a | e]; intros N.
  - destruct (N a eq_refl).
  - exists e; reflexivity.
Qed.

(** Inversion of a successful bind: the first computation returned [a]. *)
Tactic Notation "inv_bind" hyp(H) "as" ident(a) ident(E) :=
  apply bind_ok in H; destruct H as (a & E & H).

(** ** Strings *)

Lemma startswith_spec (p s : string) :
  startswith s p = true <-> exists t, s = p ++ t.
Proof.
  unfold startswith. revert s.
  induction p as [| c p IH]; intros s.
  - split; [intros _; exists s; reflexivity | destruct s; reflexivity].
  - destruct s as [| c' s]; simpl.
    + split; [discriminate | intros [t E]; discriminate].
    + destruct (ascii_dec c c') as [-> | N].
      * rewrite IH. split; intros [t E]; exists t; congruence.
      * split; [discriminate | intros [t E]; congruence].
Qed.

Lemma app_assoc_string (s t u : string) : (s ++ t) ++ u = s ++ t ++ u.
Proof. induction s; simpl; congruence. Qed.

Lemma length_app (s t : string) :
  String.length (s ++ t) = (String.length s + String.length t)%nat.
Proof. induction s; simpl; congruence. Qed.

Lemma braces_differ (s : string) : "{" ++ s ++ "}" <> s.
Proof.
  intros E. apply (f_equal String.length) in E.
  simpl in E. rewrite length_app in E. simpl in E. lia.
Qed.

(** C5. Envelope repair: the text comes back between braces exactly when it
    begins with the characters ["HistoryData"] or ["ScheduleList"] (quotes
    included), and comes back as it is exactly when it begins with neither;
    nothing but the leading characters of the text decides. *)
Theorem TEMP_RESPONSE_FIX_prefix (s : string) :
  let begins p := exists t, s = dquote ++ p ++ dquote ++ t in
  (TEMP_RESPONSE_FIX s = "{" ++ s ++ "}"
     <-> begins "HistoryData" \/ begins "ScheduleList")
  /\ (TEMP_RESPONSE_FIX s = s
     <-> ~ (begins "HistoryData" \/ begins "ScheduleList")).
Proof.
  intros begins.
  assert (B : forall p, startswith s (dquote ++ p ++ dquote) = true <-> begins p).
  { intros p. rewrite startswith_spec. unfold begins.
    split; intros [t E]; exists t; rewrite E; simpl;
      rewrite ?app_assoc_string; reflexivity. }
  unfold TEMP_RESPONSE_FIX.
  destruct (startswith s (dquote ++ "HistoryData" ++ dquote)) eqn:E1;
    destruct (startswith s (dquote ++ "ScheduleList" ++ dquote)) eqn:E2; simpl.
  all: try (split; [ split; [ intros _ | reflexivity ]
                   | split; [ intros E; destruct (braces_differ s E) | ] ];
            [ first [ left; apply B; exact E1 | right; apply B; exact E2 ]
            | intros N; exfalso; apply N;
              first [ left; apply B; exact E1 | right; apply B; exact E2 ] ]).
  split; (split; [ intros E | ]).
  - destruct (braces_differ s (eq_sym E)).
  - intros [P | P]; apply B in P; congruence.
  - intros [P | P]; apply B in P; congruence.
  - reflexivity.
Qed.

(** The decision is textual: a text that is not JSON is wrapped all the same,
    and white space before the key prevents the repair. *)
Example TEMP_RESPONSE_FIX_not_structural :
  TEMP_RESPONSE_FIX (dquote ++ "HistoryData" ++ dquote ++ " ]]") =
    "{" ++ dquote ++ "HistoryData" ++ dquote ++ " ]]}"
  /\ TEMP_RESPONSE_FIX (" " ++ dquote ++ "HistoryData" ++ dquote ++ ": {}") =
       " " ++ dquote ++ "HistoryData" ++ dquote ++ ": {}".
Proof. split; reflexivity. Qed.

(** ** The 32-bit reinterpretation *)

Lemma byte_join (u : Z) :
  0 <= u < 4294967296 ->
  Z.lor (Z.lor (Z.lor (Z.shiftl (Z.land (Z.shiftr u 24) 255) 24)
                      (Z.shiftl (Z.land (Z.shiftr u 16) 255) 16))
               (Z.shiftl (Z.land (Z.shiftr u 8) 255) 8))
        (Z.land u 255) = u.
Proof.
  intros Hu. apply Z.bits_inj'. intros i Hi.
  change 255 with (Z.ones 8).
  rewrite !Z.lor_spec, !Z.land_spec.
  rewrite !Z.shiftl_spec by lia.
  assert (High : 32 <= i -> Z.testbit u i = false).
  { intros Hhi. destruct (Z.eq_dec u 0) as [-> | Hnz].
    - apply Z.bits_0.
    - apply Z.bits_above_log2; [lia |].
      assert (Z.log2 u < 32) by (apply Z.log2_lt_pow2; lia). lia. }
  destruct (Z_lt_dec i 8) as [L8 | G8].
  { rewrite (Z.testbit_neg_r _ (i - 24)), (Z.testbit_neg_r _ (i - 16)),
      (Z.testbit_neg_r _ (i - 8)) by lia.
    rewrite (Z.testbit_ones_nonneg 8 i) by lia.
    simpl. replace (i <? 8) with true by (symmetry; apply Z.ltb_lt; lia).
    apply andb_true_r. }
  rewrite (Z.testbit_ones_nonneg 8 i) by lia.
  replace (i <? 8) with false by (symmetry; apply Z.ltb_ge; lia).
  rewrite andb_false_r, orb_false_r.
  destruct (Z_lt_dec i 16) as [L16 | G16].
  { rewrite (Z.testbit_neg_r _ (i - 24)), (Z.testbit_neg_r _ (i - 16)) by lia.
    rewrite Z.land_spec, Z.shiftr_spec by lia.
    rewrite (Z.testbit_ones_nonneg 8 (i - 8)) by lia.
    replace (i - 8 <? 8) with true by (symmetry; apply Z.ltb_lt; lia).
    simpl. rewrite andb_true_r. f_equal; lia. }
  rewrite (Z.land_spec _ _ (i - 8)), (Z.testbit_ones_nonneg 8 (i - 8)) by lia.
  replace (i - 8 <? 8) with false by (symmetry; apply Z.ltb_ge; lia).
  rewrite andb_false_r, orb_false_r.
  destruct (Z_lt_dec i 24) as [L24 | G24].
  { rewrite (Z.testbit_neg_r _ (i - 24)) by lia.
    rewrite Z.land_spec, Z.shiftr_spec by lia.
    rewrite (Z.testbit_ones_nonneg 8 (i - 16)) by lia.
    replace (i - 16 <? 8) with true by (symmetry; apply Z.ltb_lt; lia).
    simpl. rewrite andb_true_r. f_equal; lia. }
  rewrite (Z.land_spec _ _ (i - 16)), (Z.testbit_ones_nonneg 8 (i - 16)) by lia.
  replace (i - 16 <? 8) with false by (symmetry; apply Z.ltb_ge; lia).
  rewrite andb_false_r, orb_false_r.
  rewrite Z.land_spec, Z.shiftr_spec by lia.
  rewrite (Z.testbit_ones_nonneg 8 (i - 24)) by lia.
  replace (i - 24 + 24) with i by lia.
  destruct (Z_lt_dec i 32) as [L32 | G32].
  - replace (i - 24 <? 8) with true by (symmetry; apply Z.ltb_lt; lia).
    apply andb_true_r.
  - rewrite High by lia. reflexivity.
Qed.

Lemma sign_bit (u : Z) :
  0 <= u < 4294967296 -> Z.testbit u 31 = negb (u <? 2147483648).
Proof.
  intros Hu. rewrite Z.testbit_eqb by lia.
  change (2 ^ 31) with 2147483648.
  destruct (u <? 2147483648) eqn:E.
  - apply Z.ltb_lt in E. rewrite Z.div_small by lia. reflexivity.
  - apply Z.ltb_ge in E.
    assert (u / 2147483648 = 1) as ->; [| reflexivity].
    symmetry. apply (Z.div_unique u 2147483648 1 (u - 2147483648)); lia.
Qed.

Lemma pack_I_ok (n : Z) :
  succeeds (pack_I n) <-> 0 <= n < 4294967296.
Proof.
  unfold pack_I, succeeds.
  destruct ((n <? 0) || (4294967295 <? n)) eqn:E.
  - apply orb_true_iff in E. split.
    + intros [b Hb]; discriminate.
    + destruct E as [E | E]; [apply Z.ltb_lt in E | apply Z.ltb_lt in E]; lia.
  - apply orb_false_iff in E. destruct E as [E1 E2].
    apply Z.ltb_ge in E1. apply Z.ltb_ge in E2.
    split; [lia | intros _; eexists; reflexivity].
Qed.

Lemma pack_I_out_of_range (n : Z) :
  n < 0 \/ 4294967296 <= n -> pack_I n = Raise StructError.
Proof.
  intros Hn. unfold pack_I.
  replace ((n <? 0) || (4294967295 <? n)) with true; [reflexivity |].
  symmetry. apply orb_true_iff.
  destruct Hn; [left | right]; apply Z.ltb_lt; lia.
Qed.

Lemma reinterpret_signed32_spec (u : Z) :
  0 <= u < 4294967296 ->
  reinterpret_signed32 u = Ok (if u <? 2147483648 then u else u - 4294967296).
Proof.
  intros Hu. unfold reinterpret_signed32, pack_I.
  replace ((u <? 0) || (4294967295 <? u)) with false.
  - cbv beta iota zeta delta [bind unpack_i].
    rewrite byte_join by exact Hu. rewrite sign_bit by exact Hu.
    destruct (u <? 2147483648); reflexivity.
  - symmetry. apply orb_false_iff. split; apply Z.ltb_ge; lia.
Qed.

Lemma reinterpret_signed32_mod (n : Z) :
  -2147483648 <= n < 2147483648 ->
  reinterpret_signed32 (n mod 4294967296) = Ok n.
Proof.
  intros Hn.
  assert (B : 0 <= n mod 4294967296 < 4294967296) by (apply Z.mod_pos_bound; lia).
  rewrite reinterpret_signed32_spec by exact B. f_equal.
  destruct (Z_lt_dec n 0) as [Neg | Pos].
  - assert (n mod 4294967296 = n + 4294967296) as ->.
    { symmetry. apply (Z.mod_unique n 4294967296 (-1)); lia. }
    replace (n + 4294967296 <? 2147483648) with false
      by (symmetry; apply Z.ltb_ge; lia).
    lia.
  - rewrite Z.mod_small by lia.
    replace (n <? 2147483648) with true by (symmetry; apply Z.ltb_lt; lia).
    reflexivity.
Qed.

(** ** [int(hex(n), 0)] *)

Lemma hex_digit_cases (v : Z) :
  0 <= v < 16 ->
  digit_value (hex_digit v) = Some v
  /\ is_underscore (hex_digit v) = false
  /\ forall r, skip_underscore (String (hex_digit v) r) = String (hex_digit v) r.
Proof.
  intros Hv.
  assert (C : v = 0 \/ v = 1 \/ v = 2 \/ v = 3 \/ v = 4 \/ v = 5 \/ v = 6 \/ v = 7
              \/ v = 8 \/ v = 9 \/ v = 10 \/ v = 11 \/ v = 12 \/ v = 13 \/ v = 14
              \/ v = 15) by lia.
  repeat (destruct C as [-> | C]; [repeat split |]).
  subst v. repeat split.
Qed.

Lemma scan_hex_digit (v : Z) (p : bool) (k a : Z) (s : string) :
  0 <= v < 16 ->
  scan_digits 16 p k a (String (hex_digit v) s) = scan_digits 16 false (k + 1) (a * 16 + v) s.
Proof.
  intros Hv. destruct (hex_digit_cases v Hv) as (D & U & _).
  cbn [scan_digits]. rewrite U, D.
  replace (v <? 16) with true by (symmetry; apply Z.ltb_lt; lia).
  reflexivity.
Qed.

Lemma hex_digits_head (fuel : nat) (n : Z) (tail : string) :
  exists v r, 0 <= v < 16 /\ hex_digits fuel n tail = String (hex_digit v) r.
Proof.
  revert n tail. induction fuel as [| fuel IH]; intros n tail; cbn [hex_digits].
  - exists (n mod 16), tail. split; [apply Z.mod_pos_bound; lia | reflexivity].
  - destruct (n / 16 =? 0).
    + exists (n mod 16), tail. split; [apply Z.mod_pos_bound; lia | reflexivity].
    + apply IH.
Qed.

Lemma scan_hex_digits (fuel : nat) :
  forall (n : Z) (tail : string),
    0 <= n < 16 ^ (Z.of_nat fuel + 1) ->
    exists j, 0 < j /\
      forall (p : bool) (k a : Z),
        scan_digits 16 p k a (hex_digits fuel n tail)
        = scan_digits 16 false (k + j) (a * 16 ^ j + n) tail.
Proof.
  induction fuel as [| fuel IH]; intros n tail Hn.
  - exists 1. split; [lia |]. intros p k a. cbn [hex_digits].
    change (16 ^ (Z.of_nat 0 + 1)) with 16 in Hn.
    rewrite Z.mod_small by lia. rewrite scan_hex_digit by lia.
    reflexivity.
  - cbn [hex_digits].
    assert (M : 0 <= n mod 16 < 16) by (apply Z.mod_pos_bound; lia).
    assert (D : n = 16 * (n / 16) + n mod 16) by (apply Z.div_mod; lia).
    destruct (n / 16 =? 0) eqn:E.
    + apply Z.eqb_eq in E. exists 1. split; [lia |]. intros p k a.
      rewrite scan_hex_digit by lia. f_equal. change (16 ^ 1) with 16. lia.
    + destruct (IH (n / 16) (String (hex_digit (n mod 16)) tail)) as (j & Hj & S).
      { split; [apply Z.div_pos; lia |].
        apply Z.div_lt_upper_bound; [lia |].
        replace (Z.of_nat (S fuel) + 1) with (Z.succ (Z.of_nat fuel + 1)) in Hn by lia.
        rewrite Z.pow_succ_r in Hn by lia. lia. }
      exists (j + 1). split; [lia |]. intros p k a.
      rewrite S, scan_hex_digit by lia.
      f_equal; [lia |].
      rewrite Z.pow_add_r by lia. change (16 ^ 1) with 16. lia.
Qed.

Lemma log2_fuel (n : Z) :
  0 <= n -> n < 16 ^ (Z.of_nat (Z.to_nat (Z.log2 n)) + 1).
Proof.
  intros Hn. rewrite Z2Nat.id by apply Z.log2_nonneg.
  destruct (Z.eq_dec n 0) as [-> | Nz]; [reflexivity |].
  assert (L : n < 2 ^ Z.succ (Z.log2 n)) by (apply Z.log2_spec; lia).
  assert (P : 2 ^ (Z.log2 n + 1) <= 16 ^ (Z.log2 n + 1)).
  { apply Z.pow_le_mono_l. lia. }
  unfold Z.succ in L. lia.
Qed.

Lemma parse_int_hex_abs (m n : Z) :
  0 <= n -> parse_int m (hex_abs n) = Some n.
Proof.
  intros Hn. unfold hex_abs.
  destruct (hex_digits_head (Z.to_nat (Z.log2 n)) n "") as (v & r & Hv & E).
  destruct (hex_digit_cases v Hv) as (_ & U & K).
  destruct (scan_hex_digits (Z.to_nat (Z.log2 n)) n "" (conj Hn (log2_fuel n Hn)))
    as (j & Hj & S).
  unfold parse_int.
  change (lstrip ("0x" ++ hex_digits (Z.to_nat (Z.log2 n)) n ""))
    with ("0x" ++ hex_digits (Z.to_nat (Z.log2 n)) n "").
  change (split_sign ("0x" ++ hex_digits (Z.to_nat (Z.log2 n)) n ""))
    with (false, "0x" ++ hex_digits (Z.to_nat (Z.log2 n)) n "").
  cbv beta iota.
  change (split_base ("0x" ++ hex_digits (Z.to_nat (Z.log2 n)) n ""))
    with (16, false, skip_underscore (hex_digits (Z.to_nat (Z.log2 n)) n "")).
  cbv beta iota.
  rewrite E, K. cbn [starts_with_underscore]. rewrite U.
  rewrite <- E, S. cbn [scan_digits].
  replace (0 + j =? 0) with false by (symmetry; apply Z.eqb_neq; lia).
  cbn. f_equal; lia.
Qed.

Lemma parse_int_hex (m n : Z) : parse_int m (hex n) = Some n.
Proof.
  unfold hex. destruct (n <? 0) eqn:E.
  - apply Z.ltb_lt in E.
    assert (P := parse_int_hex_abs m (- n) ltac:(lia)).
    unfold parse_int in *.
    change (lstrip ("-" ++ hex_abs (- n))) with ("-" ++ hex_abs (- n)).
    change (split_sign ("-" ++ hex_abs (- n))) with (true, hex_abs (- n)).
    unfold hex_abs in *.
    change (lstrip ("0x" ++ hex_digits (Z.to_nat (Z.log2 (- n))) (- n) ""))
      with ("0x" ++ hex_digits (Z.to_nat (Z.log2 (- n))) (- n) "") in P.
    change (split_sign ("0x" ++ hex_digits (Z.to_nat (Z.log2 (- n))) (- n) ""))
      with (false, "0x" ++ hex_digits (Z.to_nat (Z.log2 (- n))) (- n) "") in P.
    cbv beta iota in *.
    destruct (split_base ("0x" ++ hex_digits (Z.to_nat (Z.log2 (- n))) (- n) ""))
      as [[base zero_only] s2].
    destruct (starts_with_underscore s2); [discriminate |].
    destruct (scan_digits base false 0 0 s2) as [[[a ndig] rest] |]; [| discriminate].
    destruct (ndig =? 0); [discriminate |].
    destruct (negb (all_space rest)); [discriminate |].
    destruct ((base =? 10) && (0 <? m) && (m <? ndig)); [discriminate |].
    destruct (zero_only && negb (a =? 0)); [discriminate |].
    injection P as P. f_equal. lia.
  - apply Z.ltb_ge in E. apply parse_int_hex_abs. exact E.
Qed.

(** ** Dictionaries *)

Section Dicts.

Variable R : runtime.

Lemma lookup_setitem (k k' : string) (v : value R) (d : dict R) :
  lookup R k' (setitem R k v d) = if String.eqb k' k then Some v else lookup R k' d.
Proof.
  induction d as [| [k0 v0] d IH]; simpl.
  - destruct (String.eqb k' k); reflexivity.
  - destruct (String.eqb_spec k k0) as [-> | N]; simpl.
    + destruct (String.eqb k' k0); reflexivity.
    + rewrite IH. destruct (String.eqb_spec k' k0) as [-> | N'].
      * destruct (String.eqb_spec k0 k); [congruence | reflexivity].
      * reflexivity.
Qed.

Lemma lookup_remove (k k' : string) (d : dict R) :
  lookup R k' (remove R k d) = if String.eqb k' k then None else lookup R k' d.
Proof.
  induction d as [| [k0 v0] d IH]; simpl.
  - destruct (String.eqb k' k); reflexivity.
  - destruct (String.eqb_spec k k0) as [-> | N]; simpl.
    + rewrite IH. destruct (String.eqb k' k0); reflexivity.
    + rewrite IH. destruct (String.eqb_spec k' k0) as [-> | N'].
      * destruct (String.eqb_spec k0 k); [congruence | reflexivity].
      * reflexivity.
Qed.

Lemma contains_setitem (k k' : string) (v : value R) (d : dict R) :
  contains R k' (setitem R k v d) = String.eqb k' k || contains R k' d.
Proof.
  unfold contains. rewrite lookup_setitem.
  destruct (String.eqb k' k); reflexivity.
Qed.

Lemma contains_setitem_present (k k' : string) (v : value R) (d : dict R) :
  contains R k d = true ->
  contains R k' (setitem R k v d) = contains R k' d.
Proof.
  intros P. rewrite contains_setitem.
  destruct (String.eqb_spec k' k) as [-> | N]; [rewrite P |]; reflexivity.
Qed.

Lemma contains_remove (k k' : string) (d : dict R) :
  contains R k' (remove R k d) = negb (String.eqb k' k) && contains R k' d.
Proof.
  unfold contains. rewrite lookup_remove.
  destruct (String.eqb k' k); reflexivity.
Qed.

Lemma getitem_ok (k : string) (d : dict R) (v : value R) :
  getitem R k d = Ok v -> lookup R k d = Some v.
Proof. unfold getitem. apply or_raise_ok. Qed.

Lemma getitem_contains (k : string) (d : dict R) (v : value R) :
  getitem R k d = Ok v -> contains R k d = true.
Proof. intros G. apply getitem_ok in G. unfold contains. rewrite G. reflexivity. Qed.

Lemma getitem_absent (k : string) (d : dict R) :
  contains R k d = false -> getitem R k d = Raise (KeyError k).
Proof.
  unfold contains, getitem. destruct (lookup R k d); [discriminate | reflexivity].
Qed.

Lemma delitem_ok (k : string) (d d' : dict R) :
  delitem R k d = Ok d' -> contains R k d = true /\ d' = remove R k d.
Proof.
  unfold delitem. destruct (contains R k d); [| discriminate].
  intros E. injection E as <-. split; reflexivity.
Qed.

Lemma delitem_absent (k : string) (d : dict R) :
  contains R k d = false -> delitem R k d = Raise (KeyError k).
Proof. unfold delitem. intros ->. reflexivity. Qed.

Lemma int0_ok (v : value R) (n : Z) :
  int0 R v = Ok n -> exists s, v = VStr s /\ parse_int (max_str_digits R) s = Some n.
Proof.
  destruct v; simpl; try discriminate.
  intros E. apply or_raise_ok in E. exists s. split; [reflexivity | exact E].
Qed.

Lemma int0_str (s : string) (n : Z) :
  parse_int (max_str_digits R) s = Some n -> int0 R (VStr s) = Ok n.
Proof. simpl. intros ->. reflexivity. Qed.

(** A key that is read with [int(d[k], 0)] holds a string. *)
Lemma read_int_not_container (k k' : string) (d : dict R) (v x : value R) (n : Z) :
  getitem R k d = Ok v -> int0 R v = Ok n ->
  lookup R k' d = Some x -> is_container R x = true -> k' <> k.
Proof.
  intros G I L C ->. apply getitem_ok in G.
  apply int0_ok in I. destruct I as (s & -> & _).
  rewrite G in L. injection L as <-. discriminate.
Qed.

Lemma Forall_setitem (Q : string * value R -> Prop) (k : string) (v v0 : value R) (d : dict R) :
  lookup R k d = Some v0 -> Q (k, v) -> Forall Q d -> Forall Q (setitem R k v d).
Proof.
  intros L Qv F. induction F as [| [k0 w] d Qh F IH]; simpl in *.
  - discriminate.
  - destruct (String.eqb_spec k k0) as [-> | N].
    + constructor; assumption.
    + constructor; [assumption | apply IH; exact L].
Qed.

Lemma Forall_remove (Q : string * value R -> Prop) (k : string) (d : dict R) :
  Forall Q d -> Forall Q (remove R k d).
Proof.
  unfold remove. intros F. apply Forall_forall. intros x Hx.
  apply filter_In in Hx. destruct Hx as [Hx _].
  rewrite Forall_forall in F. apply F. exact Hx.
Qed.

Lemma contains_In (k : string) (d : dict R) :
  contains R k d = true <-> In k (map fst d).
Proof.
  unfold contains. induction d as [| [k0 v0] d IH]; simpl.
  - split; [discriminate | intros []].
  - destruct (String.eqb_spec k k0) as [-> | N].
    + split; [intros _; left; reflexivity | reflexivity].
    + rewrite IH. split; [intros H; right; exact H |].
      intros [E | H]; [congruence | exact H].
Qed.

Lemma contains_same_keys (k : string) (d d' : dict R) :
  map fst d' = map fst d -> contains R k d' = contains R k d.
Proof.
  intros E. apply eq_true_iff_eq. rewrite !contains_In, E. reflexivity.
Qed.

End Dicts.

(** ** Decoding a demand value *)

Lemma parse_int_ffffffff (m : Z) : parse_int m "0xFFFFFFFF" = Some 4294967295.
Proof. reflexivity. Qed.

(** C3. A signed 32-bit integer [n], written as the hexadecimal text of its
    two's-complement bit pattern read as an unsigned 32-bit integer, is decoded
    by the [Demand] branch to [n] again; [0xFFFFFFFF] is decoded to [-1]. *)
Theorem decode_demand_roundtrip (R : runtime) (n : Z) :
  -2147483648 <= n < 2147483648 ->
  decode_demand R (VStr (hex (n mod 4294967296))) = Ok n
  /\ decode_demand R (VStr "0xFFFFFFFF") = Ok (-1).
Proof.
  intros Hn. unfold decode_demand. split.
  - rewrite (int0_str R _ _ (parse_int_hex _ _)).
    cbv beta iota delta [bind]. apply reinterpret_signed32_mod. exact Hn.
  - rewrite (int0_str R _ _ (parse_int_ffffffff _)).
    cbv beta iota delta [bind].
    apply (reinterpret_signed32_mod (-1)). lia.
Qed.

Lemma decode_demand_roundtrip_witness :
  decode_demand exact (VStr "0xffffffff") = Ok (-1)
  /\ decode_demand exact (VStr "0xFFFFFFFF") = Ok (-1).
Proof. apply (decode_demand_roundtrip exact (-1)). lia. Defined.

(** ** The scaling factor *)

Section Factor.

Variable R : runtime.

Lemma never_bind {A B : Type} (e : exn) (c : result A) (k : A -> result B) :
  never e c -> (forall a, never e (k a)) -> never e (bind c k).
Proof.
  unfold never. destruct c as [a | e']; simpl; intros Hc Hk.
  - apply Hk.
  - intros E. apply Hc. congruence.
Qed.

Lemma never_ok {A : Type} (e : exn) (a : A) : never e (Ok a).
Proof. discriminate. Qed.

Lemma never_or_raise {A : Type} (e e' : exn) (o : option A) :
  e <> e' -> never e (or_raise e' o).
Proof. unfold never. destruct o; simpl; congruence. Qed.

Lemma never_zero_getitem (k : string) (d : dict R) :
  never ZeroDivisionError (getitem R k d).
Proof. apply never_or_raise. discriminate. Qed.

Lemma never_zero_int0 (v : value R) : never ZeroDivisionError (int0 R v).
Proof.
  destruct v; simpl; try discriminate. apply never_or_raise. discriminate.
Qed.

Lemma never_zero_delitem (k : string) (d : dict R) :
  never ZeroDivisionError (delitem R k d).
Proof. unfold delitem. destruct (contains R k d); discriminate. Qed.

Lemma never_zero_scaled (n : Z) (f : float R) (nd : Z) :
  never ZeroDivisionError (scaled R n f nd).
Proof.
  unfold scaled, int_times_float.
  repeat (apply never_bind; [| intros ?]);
    try (apply never_or_raise; discriminate); apply never_ok.
Qed.

Lemma never_zero_decode_demand (v : value R) :
  never ZeroDivisionError (decode_demand R v).
Proof.
  unfold decode_demand, reinterpret_signed32.
  apply never_bind; [apply never_zero_int0 | intros n].
  apply never_bind.
  - unfold pack_I. destruct ((n <? 0) || (4294967295 <? n)); discriminate.
  - intros b. unfold unpack_i.
    destruct b as [| ? [| ? [| ? [| ? [| ? ?]]]]]; discriminate.
Qed.

Lemma truediv_nonzero (a b : Z) :
  b <> 0 -> truediv R a b = or_raise OverflowError (int_truediv R a b).
Proof.
  intros Hb. unfold truediv.
  replace (b =? 0) with false by (symmetry; apply Z.eqb_neq; exact Hb).
  reflexivity.
Qed.

Lemma never_zero_demand_factor (d : dict R) :
  never ZeroDivisionError (demand_factor R d).
Proof.
  unfold demand_factor.
  apply never_bind; [apply never_zero_getitem | intros mv].
  apply never_bind; [apply never_zero_int0 | intros m].
  apply never_bind; [apply never_zero_getitem | intros dv].
  apply never_bind; [apply never_zero_int0 | intros dvs].
  rewrite truediv_nonzero by lia. apply never_or_raise. discriminate.
Qed.

Lemma never_zero_convert_demand (d : dict R) :
  never ZeroDivisionError (convert_demand R d).
Proof.
  unfold convert_demand.
  apply never_bind; [apply never_zero_demand_factor | intros f].
  apply never_bind; [unfold demand_n_dec | intros nd].
  { apply never_bind; [apply never_zero_getitem | intros v; apply never_zero_int0]. }
  apply never_bind.
  - destruct (contains R "Demand" d).
    + apply never_bind; [apply never_zero_getitem | intros v].
      apply never_bind; [apply never_zero_decode_demand | intros n].
      apply never_bind; [apply never_zero_scaled | intros x; apply never_ok].
    + unfold convert_summation.
      repeat (apply never_bind; [| intros ?]);
        first [ apply never_zero_getitem | apply never_zero_int0
              | apply never_zero_scaled | apply never_ok
              | apply never_or_raise; discriminate ].
  - intros d1. unfold delete_scaling_keys.
    repeat (apply never_bind; [apply never_zero_delitem | intros ?]).
    apply never_zero_delitem.
Qed.

End Factor.

Lemma demand_factor_value (R : runtime) (d : dict R) (ms ds : string) (m dv : Z) :
  lookup R "Multiplier" d = Some (VStr ms) ->
  lookup R "Divisor" d = Some (VStr ds) ->
  parse_int (max_str_digits R) ms = Some m ->
  parse_int (max_str_digits R) ds = Some dv ->
  demand_factor R d = or_raise OverflowError (int_truediv R (Z.max m 1) (Z.max dv 1)).
Proof.
  intros Lm Ld Pm Pd. unfold demand_factor, getitem.
  rewrite Lm, Ld. cbn [or_raise bind].
  rewrite (int0_str R _ _ Pm), (int0_str R _ _ Pd). cbn [bind].
  apply truediv_nonzero. lia.
Qed.

(** C4. On a record whose [Multiplier] and [Divisor] parse to non-negative
    integers [m] and [dv], the factor is the quotient of [m] and [dv] with 1 put
    in the place of a zero, which is [max(m,1) / max(dv,1)]; the divisor is
    positive, and the rule never raises [ZeroDivisionError]. *)
Theorem demand_factor_substitutes_one (R : runtime) (d : dict R)
  (ms ds : string) (m dv : Z) :
  lookup R "Multiplier" d = Some (VStr ms) ->
  lookup R "Divisor" d = Some (VStr ds) ->
  parse_int (max_str_digits R) ms = Some m ->
  parse_int (max_str_digits R) ds = Some dv ->
  0 <= m -> 0 <= dv ->
  let m1 := if m =? 0 then 1 else m in
  let d1 := if dv =? 0 then 1 else dv in
  m1 = Z.max m 1 /\ d1 = Z.max dv 1 /\ 0 < d1
  /\ demand_factor R d = or_raise OverflowError (int_truediv R m1 d1)
  /\ never ZeroDivisionError (demand_factor R d)
  /\ never ZeroDivisionError (convert_demand R d).
Proof.
  intros Lm Ld Pm Pd Hm Hd m1 d1.
  assert (E1 : m1 = Z.max m 1).
  { unfold m1. destruct (Z.eqb_spec m 0); lia. }
  assert (E2 : d1 = Z.max dv 1).
  { unfold d1. destruct (Z.eqb_spec dv 0); lia. }
  repeat split.
  - exact E1.
  - exact E2.
  - lia.
  - rewrite E1, E2. apply (demand_factor_value R d ms ds); assumption.
  - apply never_zero_demand_factor.
  - apply never_zero_convert_demand.
Qed.

Lemma demand_factor_substitutes_one_witness :
  demand_factor exact zero_scale_record = Ok (1 # 1)%Q
  /\ never ZeroDivisionError (convert_demand exact zero_scale_record).
Proof.
  destruct (demand_factor_substitutes_one exact zero_scale_record "0x0" "0x0" 0 0)
    as (_ & _ & _ & F & _ & N);
    [reflexivity | reflexivity | reflexivity | reflexivity | lia | lia |].
  split; [exact F | exact N].
Defined.

(** X16. When the rule completes on a record that has [Demand], the value
    stored under [Demand] is [round(n * factor, n_dec)], with [n] the signed
    32-bit reading of the field, [factor] the factor of the record and [n_dec]
    the integer of [DigitsRight]. *)
Lemma convert_demand_uses_factor (R : runtime) (d d' : dict R) :
  convert_demand R d = Ok d' ->
  contains R "Demand" d = true ->
  exists factor n_dec v n x,
    demand_factor R d = Ok factor /\ demand_n_dec R d = Ok n_dec
    /\ lookup R "Demand" d = Some v /\ decode_demand R v = Ok n
    /\ scaled R n factor n_dec = Ok x
    /\ lookup R "Demand" d' = Some x.
Proof.
  intros C D. unfold convert_demand in C. rewrite D in C.
  inv_bind C as factor Ef. inv_bind C as n_dec En. inv_bind C as d1 E1.
  inv_bind E1 as v Ev. inv_bind E1 as n Edec. inv_bind E1 as x Ex.
  injection E1 as <-.
  unfold delete_scaling_keys in C.
  inv_bind C as d2 D2. inv_bind C as d3 D3. inv_bind C as d4 D4.
  inv_bind C as d5 D5.
  apply delitem_ok in C, D2, D3, D4, D5.
  destruct C as [_ ->], D5 as [_ ->], D4 as [_ ->], D3 as [_ ->], D2 as [_ ->].
  exists factor, n_dec, v, n, x. repeat split; try assumption.
  - apply getitem_ok. assumption.
  - rewrite !lookup_remove. cbn. rewrite lookup_setitem. reflexivity.
Qed.

(** ** The range of the 32-bit pack step *)

(** C10. When the [Demand] field parses to an integer outside [0, 2^32) the
    pack step raises [struct.error]: the rule does not complete, and it fails
    with that error whenever the factor and the number of decimals were
    found.  The reinterpretation succeeds exactly on [0, 2^32). *)
Theorem convert_demand_pack_range (R : runtime) (d : dict R) (s : string) (n : Z) :
  lookup R "Demand" d = Some (VStr s) ->
  parse_int (max_str_digits R) s = Some n ->
  n < 0 \/ 4294967296 <= n ->
  decode_demand R (VStr s) = Raise StructError
  /\ raises (convert_demand R d)
  /\ (forall factor n_dec,
        demand_factor R d = Ok factor -> demand_n_dec R d = Ok n_dec ->
        convert_demand R d = Raise StructError)
  /\ (forall u, succeeds (reinterpret_signed32 u) <-> 0 <= u < 4294967296).
Proof.
  intros L P Hn.
  assert (D : decode_demand R (VStr s) = Raise StructError).
  { unfold decode_demand. rewrite (int0_str R _ _ P). cbn [bind].
    unfold reinterpret_signed32. rewrite pack_I_out_of_range by exact Hn.
    reflexivity. }
  assert (C : forall factor n_dec,
             demand_factor R d = Ok factor -> demand_n_dec R d = Ok n_dec ->
             convert_demand R d = Raise StructError).
  { intros f nd Ef End. unfold convert_demand. rewrite Ef, End. cbn [bind].
    unfold contains, getitem. rewrite L. cbn [or_raise bind]. rewrite D.
    reflexivity. }
  split; [exact D |]. split; [| split; [exact C |]].
  - destruct (demand_factor R d) as [f | e] eqn:Ef.
    + destruct (demand_n_dec R d) as [nd | e] eqn:End.
      * exists StructError. apply (C f nd); reflexivity.
      * exists e. unfold convert_demand. rewrite Ef, End. reflexivity.
    + exists e. unfold convert_demand. rewrite Ef. reflexivity.
  - intros u. split.
    + intros S. assert (S' : succeeds (pack_I u)).
      { destruct S as [b E]. unfold reinterpret_signed32 in E.
        inv_bind E as bs Eb. exists bs. exact Eb. }
      apply pack_I_ok in S'. exact S'.
    + intros Hu. rewrite reinterpret_signed32_spec by exact Hu.
      eexists; reflexivity.
Qed.

Lemma convert_demand_pack_range_witness :
  decode_demand exact (VStr "0x100000000") = Raise StructError
  /\ convert_demand exact wide_demand_record = Raise StructError.
Proof.
  destruct (convert_demand_pack_range exact wide_demand_record "0x100000000" 4294967296)
    as (D & _ & C & _); [reflexivity | reflexivity | right; lia |].
  split; [exact D |].
  apply (C (1 # 4)%Q 3); reflexivity.
Defined.

(** ** History queries *)

Lemma post_cmd_sends (R : runtime) (H : host R) (self : Eagle) (command : string)
  (kws : list (string * string)) (log : list request) :
  snd (post_cmd R H self command kws log)
  = (log ++ [ {| req_address := addr self ++ "/cgi-bin/post_manager";
                 req_headers := _headers self;
                 req_data := make_cmd command kws |} ])%list.
Proof.
  unfold post_cmd, post_cmd_final, io_bind, requests_post, io_ret.
  destruct (server H log _) as [rsp | e]; [| reflexivity].
  destruct (if negb (status_code rsp =? 200) then raise_for_status rsp else Ok tt);
    [| reflexivity].
  destruct (or_raise _ (json_loads H (TEMP_RESPONSE_FIX (text rsp)))); reflexivity.
Qed.

(** C8. With a frequency outside [0, 65535] the call raises the
    [ValueError] of the check and the list of requests sent is what it was;
    with a frequency inside the range the check raises nothing: the call is
    the posting of the command with the [Frequency] parameter, and exactly
    one request, carrying that command, is sent. *)
Theorem get_history_data_frequency (R : runtime) (H : host R) (self : Eagle)
  (start_time : Z) (end_time : option Z) (frequency : Z) (log : list request) :
  let kw := (("StartTime", hex (start_time - EPOCH_DELTA R))
             :: match end_time with
                | Some e => [("EndTime", hex (e - EPOCH_DELTA R))]
                | None => []
                end
             ++ [("Frequency", hex frequency)])%list in
  (frequency < 0 \/ 65535 < frequency ->
     get_history_data R H self start_time end_time (Some frequency) log
     = (Raise (ValueError "frequency must be between 0 and 65535 seconds"), log))
  /\ (0 <= frequency <= 65535 ->
        get_history_data R H self start_time end_time (Some frequency) log
        = post_cmd R H self "get_history_data" kw log
        /\ snd (get_history_data R H self start_time end_time (Some frequency) log)
           = (log ++ [ {| req_address := addr self ++ "/cgi-bin/post_manager";
                          req_headers := _headers self;
                          req_data := make_cmd "get_history_data" kw |} ])%list).
Proof.
  intros kw. split.
  - intros Out. unfold get_history_data, io_bind, io_ret, SAFETY_ON.
    replace ((65535 <? frequency) || (frequency <? 0)) with true; [reflexivity |].
    symmetry. apply orb_true_iff.
    destruct Out; [right | left]; apply Z.ltb_lt; assumption.
  - intros In.
    assert (E : get_history_data R H self start_time end_time (Some frequency) log
                = post_cmd R H self "get_history_data" kw log).
    { unfold get_history_data, io_bind, io_ret, SAFETY_ON.
      replace ((65535 <? frequency) || (frequency <? 0)) with false.
      - cbn [andb]. unfold kw. destruct end_time; reflexivity.
      - symmetry. apply orb_false_iff. split; apply Z.ltb_ge; lia. }
    split; [exact E |]. rewrite E. apply post_cmd_sends.
Qed.

Lemma get_history_data_frequency_witness :
  get_history_data exact quiet_host eagle0 946684800 None (Some 70000) []
  = (Raise (ValueError "frequency must be between 0 and 65535 seconds"), [])
  /\ snd (get_history_data exact quiet_host eagle0 946684800 None (Some 65535) [])
     = [ {| req_address := addr eagle0 ++ "/cgi-bin/post_manager";
            req_headers := _headers eagle0;
            req_data := make_cmd "get_history_data"
                          [("StartTime", "0x0"); ("Frequency", "0xffff")] |} ].
Proof.
  split.
  - apply (get_history_data_frequency exact quiet_host eagle0 946684800 None 70000 []).
    right. lia.
  - apply (get_history_data_frequency exact quiet_host eagle0 946684800 None 65535 []).
    lia.
Defined.

(** ** The rules, one record at a time *)

Section Rules.

Variable R : runtime.

Lemma rewritten_refl (d : dict R) : rewritten R [] d d.
Proof.
  repeat split.
  - intros k. cbn. rewrite andb_true_r. reflexivity.
  - intros k x L _ _. exact L.
  - intros Q _ F. exact F.
Qed.

Lemma rewritten_set (k : string) (d : dict R) (v w : value R) (n : Z) :
  getitem R k d = Ok v -> int0 R v = Ok n -> is_container R w = false ->
  rewritten R [] d (setitem R k w d).
Proof.
  intros G I W. repeat split.
  - intros k'. cbn. rewrite andb_true_r.
    apply contains_setitem_present. apply (getitem_contains R k d v G).
  - intros k' x L C _. rewrite lookup_setitem.
    destruct (String.eqb_spec k' k) as [E | N]; [| exact L].
    destruct (read_int_not_container R k k' d v x n G I L C E).
  - intros Q Qs F. apply (Forall_setitem R Q k w v).
    + apply getitem_ok. exact G.
    + apply Qs. exact W.
    + exact F.
Qed.

Lemma rewritten_del (k : string) (d : dict R) : rewritten R [k] d (remove R k d).
Proof.
  repeat split.
  - intros k'. rewrite contains_remove. cbn. rewrite orb_false_r. apply andb_comm.
  - intros k' x L _ N. cbn in N. rewrite orb_false_r in N.
    rewrite lookup_remove, N. exact L.
  - intros Q _ F. apply Forall_remove. exact F.
Qed.

Lemma rewritten_trans (ks1 ks2 : list string) (d d1 d2 : dict R) :
  rewritten R ks1 d d1 -> rewritten R ks2 d1 d2 -> rewritten R (ks1 ++ ks2) d d2.
Proof.
  intros (K1 & L1 & F1) (K2 & L2 & F2). repeat split.
  - intros k. rewrite K2, K1, existsb_app, negb_orb, andb_assoc. reflexivity.
  - intros k x L C N. rewrite existsb_app in N. apply orb_false_iff in N.
    destruct N as [N1 N2]. apply L2; [apply L1 |..]; assumption.
  - intros Q Qs F. apply F2; [exact Qs |]. apply F1; [exact Qs | exact F].
Qed.

Lemma rewritten_delitem (k : string) (d d' : dict R) :
  delitem R k d = Ok d' -> contains R k d = true /\ rewritten R [k] d d'.
Proof.
  intros D. apply delitem_ok in D. destruct D as [C ->].
  split; [exact C | apply rewritten_del].
Qed.

Lemma scaled_scalar (n : Z) (f : float R) (nd : Z) (x : value R) :
  scaled R n f nd = Ok x -> is_container R x = false.
Proof.
  unfold scaled. intros S.
  inv_bind S as y Ey. inv_bind S as r Er. injection S as <-. reflexivity.
Qed.

Lemma convert_summation_rewritten (k : string) (f : float R) (nd : Z) (d d' : dict R) :
  convert_summation R k f nd d = Ok d' ->
  contains R k d = true /\ rewritten R [] d d'.
Proof.
  unfold convert_summation. intros C.
  inv_bind C as v Ev. inv_bind C as n En. inv_bind C as x Ex. injection C as <-.
  split; [apply (getitem_contains R k d v Ev) |].
  apply (rewritten_set k d v x n Ev En). apply (scaled_scalar n f nd x Ex).
Qed.

(** A key whose value is an object or a list is not one that was read as an
    integer. *)
Lemma container_not_read (k k' : string) (d : dict R) (v x : value R) (n : Z) :
  getitem R k d = Ok v -> int0 R v = Ok n ->
  lookup R k' d = Some x -> is_container R x = true ->
  String.eqb k' k = false.
Proof.
  intros G I L C. apply String.eqb_neq.
  apply (read_int_not_container R k k' d v x n G I L C).
Qed.

Lemma convert_demand_rewritten (d d' : dict R) :
  convert_demand R d = Ok d' ->
  rewritten R scaling_keys d d'
  /\ (forall k x, lookup R k d = Some x -> is_container R x = true ->
                  existsb (String.eqb k) ["DigitsLeft"; "SuppressLeadingZero"] = false ->
                  lookup R k d' = Some x)
  /\ forallb (fun k => contains R k d) scaling_keys = true
  /\ (contains R "Demand" d
      || (contains R "SummationDelivered" d && contains R "SummationReceived" d)) = true.
Proof.
  unfold convert_demand, demand_factor, demand_n_dec, delete_scaling_keys.
  intros C.
  inv_bind C as factor Ef.
  inv_bind Ef as mv Gm. inv_bind Ef as m Im. inv_bind Ef as dv Gd. inv_bind Ef as dvs Id.
  inv_bind C as n_dec En. inv_bind En as rv Gr.
  inv_bind C as d1 E1.
  inv_bind C as d2 D2. inv_bind C as d3 D3. inv_bind C as d4 D4. inv_bind C as d5 D5.
  apply rewritten_delitem in C, D2, D3, D4, D5.
  destruct C as [C6 W6], D5 as [C5 W5], D4 as [C4 W4], D3 as [C3 W3], D2 as [C2 W2].
  assert (W1 : rewritten R [] d d1
               /\ (contains R "Demand" d
                   || (contains R "SummationDelivered" d
                       && contains R "SummationReceived" d)) = true).
  { destruct (contains R "Demand" d) eqn:Dm.
    - inv_bind E1 as v Ev. inv_bind E1 as n Edec. inv_bind E1 as x Ex.
      injection E1 as <-. split; [| reflexivity].
      unfold decode_demand in Edec. inv_bind Edec as dm Idm.
      apply (rewritten_set "Demand" d v x dm Ev Idm).
      apply (scaled_scalar n factor n_dec x Ex).
    - inv_bind E1 as ds Es.
      apply convert_summation_rewritten in Es, E1.
      destruct Es as [Cs Ws], E1 as [Cr Wr]. split.
      + apply (rewritten_trans [] [] d ds d1 Ws Wr).
      + destruct Ws as (Ks & _ & _). rewrite Ks in Cr. cbn in Cr.
        rewrite andb_true_r in Cr. rewrite Cs, Cr. reflexivity. }
  destruct W1 as [W1 Branch].
  assert (W : rewritten R scaling_keys d d').
  { apply (rewritten_trans [] scaling_keys d d1 d' W1).
    apply (rewritten_trans ["Multiplier"] _ d1 d2 d' W2).
    apply (rewritten_trans ["Divisor"] _ d2 d3 d' W3).
    apply (rewritten_trans ["DigitsRight"] _ d3 d4 d' W4).
    apply (rewritten_trans ["DigitsLeft"] ["SuppressLeadingZero"] d4 d5 d' W5 W6). }
  split; [exact W |]. split; [| split; [| exact Branch]].
  - intros k x L Cx N. destruct W as (_ & Lw & _). apply (Lw k x L Cx).
    cbn in N. cbn.
    rewrite (container_not_read "Multiplier" k d mv x m Gm Im L Cx).
    rewrite (container_not_read "Divisor" k d dv x dvs Gd Id L Cx).
    rewrite (container_not_read "DigitsRight" k d rv x n_dec Gr En L Cx).
    exact N.
  - destruct W1 as (K1 & _ & _), W2 as (K2 & _ & _), W3 as (K3 & _ & _),
      W4 as (K4 & _ & _), W5 as (K5 & _ & _).
    rewrite K5, K4, K3, K2, K1 in C6. rewrite K4, K3, K2, K1 in C5.
    rewrite K3, K2, K1 in C4. rewrite K2, K1 in C3. rewrite K1 in C2.
    cbn in C2, C3, C4, C5, C6. cbn.
    rewrite ?andb_true_r in *.
    rewrite C2, C3, C4, C5, C6. reflexivity.
Qed.

End Rules.

Section ApplyRules.

Variable R : runtime.

Lemma convert_price_rewritten (d d' : dict R) :
  convert_price R d = Ok d' ->
  rewritten R ["TrailingDigits"] d d'
  /\ (forall k x, lookup R k d = Some x -> is_container R x = true ->
                  lookup R k d' = Some x)
  /\ contains R "TrailingDigits" d = true
  /\ contains R "Currency" d = true.
Proof.
  unfold convert_price. intros C.
  inv_bind C as pv Gp. inv_bind C as p Ip. inv_bind C as tv Gt. inv_bind C as t It.
  inv_bind C as q Eq. inv_bind C as cv Gc. inv_bind C as c Ic.
  assert (W1 := rewritten_set R "Price" d pv (VFloat R q) p Gp Ip eq_refl).
  assert (W2 := rewritten_set R "Currency" _ cv (VInt c) c Gc Ic eq_refl).
  apply rewritten_delitem in C. destruct C as [C3 W3].
  assert (W : rewritten R ["TrailingDigits"] d d').
  { apply (rewritten_trans R [] _ _ _ _ W1).
    apply (rewritten_trans R [] _ _ _ _ W2 W3). }
  split; [exact W |]. split; [| split].
  - intros k x L Cx. destruct W as (_ & Lw & _). apply (Lw k x L Cx).
    cbn. rewrite (container_not_read R "TrailingDigits" k d tv x t Gt It L Cx).
    reflexivity.
  - apply (getitem_contains R _ _ _ Gt).
  - apply getitem_contains in Gc. destruct W1 as (K1 & _ & _).
    rewrite K1 in Gc. cbn in Gc. rewrite andb_true_r in Gc. exact Gc.
Qed.

Lemma convert_timestamp_rewritten (d d' : dict R) :
  convert_timestamp R d = Ok d' -> rewritten R [] d d'.
Proof.
  unfold convert_timestamp. intros C.
  inv_bind C as v Gv. inv_bind C as n In. inv_bind C as t Et. injection C as <-.
  apply (rewritten_set R "TimeStamp" d v (VTime R t) n Gv In eq_refl).
Qed.

(** The keys the rules delete from a record. *)
Lemma apply_rules_effect (d d' : dict R) :
  apply_rules R d = Ok d' ->
  rewritten R ((if contains R "Multiplier" d then scaling_keys else [])
               ++ (if contains R "Price" d then ["TrailingDigits"] else [])) d d'
  /\ (forall k x, lookup R k d = Some x -> is_container R x = true ->
                  contains R "Multiplier" d
                  && existsb (String.eqb k) ["DigitsLeft"; "SuppressLeadingZero"] = false ->
                  lookup R k d' = Some x)
  /\ lacks_dependent_key R d = false.
Proof.
  unfold apply_rules. intros A.
  inv_bind A as da Ea. inv_bind A as dp Ep.
  (* the demand rule *)
  assert (Wa : rewritten R (if contains R "Multiplier" d then scaling_keys else []) d da
               /\ (forall k x, lookup R k d = Some x -> is_container R x = true ->
                     contains R "Multiplier" d
                     && existsb (String.eqb k) ["DigitsLeft"; "SuppressLeadingZero"] = false ->
                     lookup R k da = Some x)
               /\ (contains R "Multiplier" d = true ->
                   forallb (fun k => contains R k d) scaling_keys = true
                   /\ (contains R "Demand" d
                       || (contains R "SummationDelivered" d
                           && contains R "SummationReceived" d)) = true)).
  { destruct (contains R "Multiplier" d) eqn:M.
    - apply convert_demand_rewritten in Ea. destruct Ea as (W & L & F & B).
      split; [exact W |]. split; [| intros _; split; assumption].
      intros k x Lk Cx N. apply (L k x Lk Cx). exact N.
    - injection Ea as <-. split; [apply rewritten_refl |].
      split; [intros k x Lk _ _; exact Lk | discriminate]. }
  destruct Wa as (Wa & La & Fa).
  assert (Pa : contains R "Price" da = contains R "Price" d).
  { destruct Wa as (K & _ & _). rewrite K.
    destruct (contains R "Multiplier" d); cbn; apply andb_true_r. }
  (* the price rule *)
  assert (Wp : rewritten R (if contains R "Price" d then ["TrailingDigits"] else []) da dp
               /\ (forall k x, lookup R k da = Some x -> is_container R x = true ->
                     lookup R k dp = Some x)
               /\ (contains R "Price" d = true ->
                   contains R "TrailingDigits" da = true
                   /\ contains R "Currency" da = true)).
  { rewrite Pa in Ep. destruct (contains R "Price" d) eqn:P.
    - apply convert_price_rewritten in Ep. destruct Ep as (W & L & T & C).
      split; [exact W |]. split; [exact L | intros _; split; assumption].
    - injection Ep as <-. split; [apply rewritten_refl |].
      split; [intros k x Lk _; exact Lk | discriminate]. }
  destruct Wp as (Wp & Lp & Fp).
  (* the time stamp rule *)
  assert (Wt : rewritten R [] dp d').
  { destruct (contains R "TimeStamp" dp).
    - apply convert_timestamp_rewritten. exact A.
    - injection A as <-. apply rewritten_refl. }
  split; [| split].
  - rewrite <- (app_nil_r (_ ++ _)), <- app_assoc.
    apply (rewritten_trans R _ _ _ _ _ Wa).
    apply (rewritten_trans R _ _ _ _ _ Wp Wt).
  - intros k x Lk Cx N. destruct Wt as (_ & Lt & _).
    apply (Lt k x); [| exact Cx | reflexivity].
    apply (Lp k x); [| exact Cx]. apply (La k x Lk Cx N).
  - unfold lacks_dependent_key. apply orb_false_iff. split.
    + destruct (contains R "Multiplier" d) eqn:M; [| reflexivity].
      destruct (Fa eq_refl) as [F B]. cbn in F.
      repeat (apply andb_true_iff in F; destruct F as [?C F]).
      rewrite C0, C1, C2, C3. cbn.
      destruct (contains R "Demand" d); [reflexivity |].
      cbn in B. apply andb_true_iff in B. destruct B as [-> ->]. reflexivity.
    + destruct (contains R "Price" d) eqn:P; [| reflexivity].
      destruct (Fp eq_refl) as [T C]. destruct Wa as (K & _ & _).
      rewrite K in T, C. apply andb_true_iff in T, C.
      destruct T as [-> _], C as [-> _]. reflexivity.
Qed.

End ApplyRules.

(** ** The traversal *)

Section Traversal.

Variable R : runtime.

(** Induction on a value, with the hypothesis on a record shaped as the
    traversal goes through it. *)
Lemma value_induction (P : value R -> Prop) :
  P VNone ->
  (forall b, P (VBool b)) ->
  (forall n, P (VInt n)) ->
  (forall x, P (VFloat R x)) ->
  (forall s, P (VStr s)) ->
  (forall t, P (VTime R t)) ->
  (forall l, Forall P l -> P (VList R l)) ->
  (forall d, Forall (fun kv => P (snd kv) /\ child_all R P (snd kv)) d -> P (VDict R d)) ->
  forall v, P v.
Proof.
  intros HNone HBool HInt HFloat HStr HTime HList HDict.
  fix IH 1. intros [ | b | n | x | s | t | l | d ].
  - apply HNone.
  - apply HBool.
  - apply HInt.
  - apply HFloat.
  - apply HStr.
  - apply HTime.
  - apply HList. revert l. fix IHl 1.
    intros [| e l]; constructor; [apply IH | apply IHl].
  - apply HDict. revert d. fix IHd 1.
    intros [| [k x] d]; constructor; [| apply IHd].
    split; [apply IH |]. simpl.
    generalize (IH x).
    destruct x as [ | | | | | | l | dx ]; intros Px; simpl; try exact I.
    + clear Px. revert l. fix IHl 1.
      intros [| e l]; constructor; [apply IH | apply IHl].
    + exact Px.
Qed.

Lemma process_data_dict (d : dict R) :
  process_data R (VDict R d)
  = (d1 <- process_values R (process_data R) d ;;
     d2 <- apply_rules R d1 ;;
     Ok (VDict R d2)).
Proof. reflexivity. Qed.

Lemma process_data_not_dict (v : value R) :
  is_dict R v = false -> process_data R v = Raise AttributeError.
Proof. destruct v; simpl; congruence. Qed.

Lemma process_data_ok (v v' : value R) :
  process_data R v = Ok v' ->
  exists d d1 d2,
    v = VDict R d /\ v' = VDict R d2
    /\ process_values R (process_data R) d = Ok d1
    /\ apply_rules R d1 = Ok d2.
Proof.
  destruct v as [ | | | | | | l | d ]; try discriminate.
  rewrite process_data_dict. intros E.
  inv_bind E as d1 E1. inv_bind E as d2 E2. injection E as <-.
  exists d, d1, d2. repeat split; assumption.
Qed.

Lemma map_result_ok {A B : Type} (f : A -> result B) (l : list A) (l' : list B) :
  map_result f l = Ok l' -> Forall2 (fun x y => f x = Ok y) l l'.
Proof.
  revert l'. induction l as [| x l IH]; intros l' E; simpl in E.
  - injection E as <-. constructor.
  - inv_bind E as y Ey. inv_bind E as ys Eys. injection E as <-.
    constructor; [exact Ey | apply IH; exact Eys].
Qed.

Lemma map_result_fixed {A : Type} (f : A -> result A) (l : list A) :
  Forall (fun x => f x = Ok x) l -> map_result f l = Ok l.
Proof.
  induction 1 as [| x l Hx _ IH]; simpl; [reflexivity |].
  rewrite Hx. cbn [bind]. rewrite IH. reflexivity.
Qed.

Lemma map_result_raises {A B : Type} (f : A -> result B) (l : list A) (x : A) :
  In x l -> raises (f x) -> raises (map_result f l).
Proof.
  intros I [e E]. induction l as [| y l IH]; simpl in *; [destruct I |].
  destruct (f y) as [b | e'] eqn:Ey; [| exists e'; reflexivity].
  destruct I as [-> | I]; [congruence |].
  destruct (IH I) as [e' E']. cbn [bind]. rewrite E'. exists e'. reflexivity.
Qed.

Lemma process_values_ok (f : value R -> result (value R)) (d d1 : dict R) :
  process_values R f d = Ok d1 ->
  Forall2 (fun kv kv1 => fst kv1 = fst kv /\ process_child R f (snd kv) = Ok (snd kv1)) d d1.
Proof.
  revert d1. induction d as [| [k x] d IH]; intros d1 E; simpl in E.
  - injection E as <-. constructor.
  - inv_bind E as x1 Ex. inv_bind E as d' Ed. injection E as <-.
    constructor; [split; [reflexivity | exact Ex] | apply IH; exact Ed].
Qed.

Lemma process_values_fixed (f : value R -> result (value R)) (d : dict R) :
  Forall (fun kv => process_child R f (snd kv) = Ok (snd kv)) d ->
  process_values R f d = Ok d.
Proof.
  induction 1 as [| [k x] d Hx _ IH]; simpl; [reflexivity |].
  simpl in Hx. rewrite Hx. cbn [bind]. rewrite IH. reflexivity.
Qed.

Lemma process_values_raises (f : value R -> result (value R)) (d : dict R)
  (k : string) (x : value R) :
  In (k, x) d -> raises (process_child R f x) -> raises (process_values R f d).
Proof.
  intros I [e E]. induction d as [| [k0 y] d IH]; simpl in *; [destruct I |].
  destruct (process_child R f y) as [b | e'] eqn:Ey; [| exists e'; reflexivity].
  destruct I as [I | I]; [injection I as -> ->; congruence |].
  destruct (IH I) as [e' E']. cbn [bind]. rewrite E'. exists e'. reflexivity.
Qed.

Lemma process_values_keys (f : value R -> result (value R)) (d d1 : dict R) :
  process_values R f d = Ok d1 -> map fst d1 = map fst d.
Proof.
  intros E. apply process_values_ok in E.
  induction E as [| kv kv1 d d1 [K _] _ IH]; simpl; [reflexivity |].
  rewrite K, IH. reflexivity.
Qed.

Lemma process_values_lookup (f : value R -> result (value R)) (d d1 : dict R)
  (k : string) (x : value R) :
  process_values R f d = Ok d1 -> lookup R k d = Some x ->
  exists x1, lookup R k d1 = Some x1 /\ process_child R f x = Ok x1.
Proof.
  intros E. apply process_values_ok in E.
  induction E as [| [k0 y] [k1 y1] d d1 [K P] _ IH]; simpl; [discriminate |].
  simpl in K, P. subst k1. destruct (String.eqb k k0).
  - intros L. injection L as <-. exists y1. split; [reflexivity | exact P].
  - exact IH.
Qed.

Lemma lacks_dependent_key_keys (d d1 : dict R) :
  map fst d1 = map fst d -> lacks_dependent_key R d1 = lacks_dependent_key R d.
Proof.
  intros K. unfold lacks_dependent_key.
  rewrite !(fun k => contains_same_keys R k d d1 K). reflexivity.
Qed.

(** The keys of a normalised record: those of the record, less the scaling
    keys when it had [Multiplier], less [TrailingDigits] when it had [Price]. *)
Lemma process_data_keys (d d' : dict R) (k : string) :
  process_data R (VDict R d) = Ok (VDict R d') ->
  contains R k d'
  = contains R k d
    && negb (existsb (String.eqb k)
               ((if contains R "Multiplier" d then scaling_keys else [])
                ++ (if contains R "Price" d then ["TrailingDigits"] else []))).
Proof.
  intros E. apply process_data_ok in E.
  destruct E as (d0 & d1 & d2 & E0 & E2 & V & A).
  injection E0 as <-. injection E2 as <-.
  apply process_values_keys in V.
  apply apply_rules_effect in A. destruct A as ((K & _ & _) & _ & _).
  rewrite K, !(fun k => contains_same_keys R k d d1 V). reflexivity.
Qed.

End Traversal.

(** ** Keys after normalisation *)

(** C6. When normalisation of a record completes: if the record had
    [Multiplier] it has none of the five scaling keys afterwards; if it had
    [TrailingDigits] and [Price] it has no [TrailingDigits] afterwards; and
    without [Price] the key [TrailingDigits] stays where it was. *)
Theorem normalized_record_keys (R : runtime) (d d' : dict R) :
  process_data R (VDict R d) = Ok (VDict R d') ->
  (contains R "Multiplier" d = true ->
     forallb (fun k => negb (contains R k d')) scaling_keys = true)
  /\ (contains R "TrailingDigits" d = true -> contains R "Price" d = true ->
        contains R "TrailingDigits" d' = false)
  /\ (contains R "Price" d = false ->
        contains R "TrailingDigits" d' = contains R "TrailingDigits" d).
Proof.
  intros E. split; [| split].
  - intros M. cbn [forallb scaling_keys].
    rewrite !(fun k => process_data_keys R d d' k E), M. cbn.
    rewrite !andb_false_r. reflexivity.
  - intros _ P. rewrite (process_data_keys R d d' _ E), P.
    destruct (contains R "Multiplier" d); cbn; apply andb_false_r.
  - intros P. rewrite (process_data_keys R d d' _ E), P.
    destruct (contains R "Multiplier" d); cbn; apply andb_true_r.
Qed.

Lemma normalized_record_keys_witness :
  forallb (fun k => negb (contains exact k [("Demand", VFloat exact (-1 # 4)%Q)]))
          scaling_keys = true
  /\ contains exact "TrailingDigits"
       [("Price", VFloat exact (10 # 1)%Q); ("Currency", VInt 840)] = false.
Proof.
  split.
  - apply (normalized_record_keys exact demand_record
             [("Demand", VFloat exact (-1 # 4)%Q)]); reflexivity.
  - apply (normalized_record_keys exact price_record
             [("Price", VFloat exact (10 # 1)%Q); ("Currency", VInt 840)]);
      reflexivity.
Defined.

Example trailing_digits_without_price :
  process_data exact (VDict exact bare_trailing_digits_record)
  = Ok (VDict exact bare_trailing_digits_record).
Proof. reflexivity. Qed.

(** ** Records that lack a dependent key *)

(** C7. A record that has the trigger key of a rule and lacks a key the rule
    depends on is not normalised: [process_data] raises.  The dependent keys
    of [Multiplier] are the four other scaling keys and, when there is no
    [Demand], the two summation fields; those of [Price] are [TrailingDigits]
    and [Currency]. *)
Theorem missing_dependent_key_raises (R : runtime) (d : dict R) :
  lacks_dependent_key R d = true -> raises (process_data R (VDict R d)).
Proof.
  intros L. apply raises_not_ok. intros v' E.
  apply process_data_ok in E.
  destruct E as (d0 & d1 & d2 & E0 & _ & V & A).
  injection E0 as <-.
  apply process_values_keys in V.
  apply apply_rules_effect in A. destruct A as (_ & _ & N).
  rewrite (lacks_dependent_key_keys R d d1 V) in N. congruence.
Qed.

Lemma missing_dependent_key_raises_witness :
  raises (process_data exact (VDict exact no_divisor_record)).
Proof. apply (missing_dependent_key_raises exact no_divisor_record). reflexivity. Defined.

(** The exception is the [KeyError] of the absent key when what is read
    before it is well formed. *)
Lemma convert_demand_without_divisor (R : runtime) (d : dict R) (ms : string) (m : Z) :
  lookup R "Multiplier" d = Some (VStr ms) ->
  parse_int (max_str_digits R) ms = Some m ->
  contains R "Divisor" d = false ->
  convert_demand R d = Raise (KeyError "Divisor").
Proof.
  intros L P A. unfold convert_demand, demand_factor, getitem at 1.
  rewrite L. cbn [or_raise bind]. rewrite (int0_str R _ _ P). cbn [bind].
  rewrite (getitem_absent R _ _ A). reflexivity.
Qed.

Lemma convert_price_without_trailing_digits (R : runtime) (d : dict R) (ps : string) (p : Z) :
  lookup R "Price" d = Some (VStr ps) ->
  parse_int (max_str_digits R) ps = Some p ->
  contains R "TrailingDigits" d = false ->
  convert_price R d = Raise (KeyError "TrailingDigits").
Proof.
  intros L P A. unfold convert_price, getitem at 1.
  rewrite L. cbn [or_raise bind]. rewrite (int0_str R _ _ P). cbn [bind].
  rewrite (getitem_absent R _ _ A). reflexivity.
Qed.

Example no_divisor_record_key_error :
  process_data exact (VDict exact no_divisor_record) = Raise (KeyError "Divisor").
Proof. reflexivity. Qed.

(** ** Lists that hold something other than objects *)

Lemma existsb_In {A : Type} (f : A -> bool) (l : list A) :
  existsb f l = true -> exists x, In x l /\ f x = true.
Proof. apply existsb_exists. Qed.

(** C9. When a list the traversal reaches holds an element that is not an
    object, [process_data] raises. *)
Theorem non_object_in_list_raises (R : runtime) (v : value R) :
  reaches_non_object R v = true -> raises (process_data R v).
Proof.
  induction v as [ | b | n | x | s | t | l IHl | d IHd ] using (value_induction R);
    intros Bad; try discriminate.
  - exists AttributeError. reflexivity.
  - cbn [reaches_non_object] in Bad. apply existsb_In in Bad.
    destruct Bad as ([k x] & I & Bx).
    rewrite Forall_forall in IHd. destruct (IHd (k, x) I) as [Px Cx].
    simpl in Px, Cx.
    assert (Rx : raises (process_child R (process_data R) x)).
    { destruct x as [ | | | | | | l | dx ]; try discriminate.
      - cbn [reaches_non_object] in Bx. apply existsb_In in Bx.
        destruct Bx as (e & Ie & Be).
        assert (Re : raises (process_data R e)).
        { destruct (is_dict R e) eqn:De.
          - simpl in Be. cbn [child_all] in Cx.
            rewrite Forall_forall in Cx. apply (Cx e Ie Be).
          - exists AttributeError. apply process_data_not_dict. exact De. }
        destruct (map_result_raises (process_data R) l e Ie Re) as [err E].
        exists err. cbn [process_child]. rewrite E. reflexivity.
      - apply Px. exact Bx. }
    destruct (process_values_raises R (process_data R) d k x I Rx) as [err E].
    exists err. rewrite process_data_dict, E. reflexivity.
Qed.

Lemma non_object_in_list_raises_witness :
  raises (process_data exact list_of_numbers_response).
Proof. apply (non_object_in_list_raises exact list_of_numbers_response). reflexivity. Defined.

Example list_of_numbers_attribute_error :
  process_data exact list_of_numbers_response = Raise AttributeError.
Proof. reflexivity. Qed.

(** ** A second run *)

Section SecondRun.

Variable R : runtime.

Lemma scalar_no_key (ks : list string) (v : value R) :
  is_container R v = false -> no_key_in R ks v = true.
Proof. destruct v; simpl; congruence. Qed.

Lemma scalar_lists_hold (v : value R) :
  is_container R v = false -> lists_hold_objects R v = true.
Proof. destruct v; simpl; congruence. Qed.

Lemma process_child_scalar (f : value R -> result (value R)) (v : value R) :
  is_container R v = false -> process_child R f v = Ok v.
Proof. destruct v; simpl; congruence. Qed.

Lemma apply_rules_idle (d : dict R) :
  contains R "Multiplier" d = false ->
  contains R "Price" d = false ->
  contains R "TimeStamp" d = false ->
  apply_rules R d = Ok d.
Proof.
  intros M P T. unfold apply_rules. rewrite M. cbn [bind]. rewrite P. cbn [bind].
  rewrite T. reflexivity.
Qed.

(** A record in which no rule can fire, and whose lists hold objects, is a
    fixed point of [process_data]. *)
Lemma process_data_fixed (v : value R) :
  is_dict R v = true ->
  no_key_in R ["Multiplier"] v = true ->
  no_key_in R ["Price"; "TimeStamp"] v = true ->
  lists_hold_objects R v = true ->
  process_data R v = Ok v.
Proof.
  induction v as [ | b | n | x | s | t | l IHl | d IHd ] using (value_induction R);
    intros D NM NP LH; try discriminate.
  cbn [no_key_in lists_hold_objects forallb] in NM, NP, LH.
  apply andb_true_iff in NM. destruct NM as [M NM].
  apply andb_true_iff in NP. destruct NP as [PT NP].
  rewrite andb_true_r in M. apply negb_true_iff in M.
  apply andb_true_iff in PT. destruct PT as [P T].
  rewrite andb_true_r in T. apply negb_true_iff in P, T.
  rewrite forallb_forall in NM, NP, LH. rewrite Forall_forall in IHd.
  rewrite process_data_dict.
  rewrite (process_values_fixed R (process_data R) d).
  - cbn [bind]. rewrite (apply_rules_idle d M P T). reflexivity.
  - apply Forall_forall. intros [k x] I.
    specialize (NM _ I). specialize (NP _ I). specialize (LH _ I).
    destruct (IHd _ I) as [Px Cx]. simpl in *.
    destruct x as [ | | | | | | l | dx ]; try reflexivity.
    + cbn [process_child]. rewrite (map_result_fixed (process_data R) l).
      * reflexivity.
      * cbn [child_all] in Cx. cbn [no_key_in lists_hold_objects] in NM, NP, LH.
        rewrite forallb_forall in NM, NP, LH. rewrite Forall_forall in Cx.
        apply Forall_forall. intros e Ie.
        specialize (LH e Ie). apply andb_true_iff in LH. destruct LH as [De LHe].
        apply (Cx e Ie De (NM e Ie) (NP e Ie) LHe).
    + cbn [process_child]. apply Px; [reflexivity | assumption..].
Qed.

Lemma processed_elements (l l1 : list (value R)) :
  Forall (fun v => forall v', process_data R v = Ok v' ->
                     is_dict R v' = true
                     /\ no_key_in R ["Multiplier"] v' = true
                     /\ lists_hold_objects R v' = true) l ->
  Forall2 (fun e e1 => process_data R e = Ok e1) l l1 ->
  forallb (no_key_in R ["Multiplier"]) l1 = true
  /\ forallb (fun e => is_dict R e && lists_hold_objects R e) l1 = true.
Proof.
  intros F E. induction E as [| e e1 l l1 Ee _ IHE]; [split; reflexivity |].
  destruct (Forall_inv F _ Ee) as (De & Ne & Le).
  destruct (IHE (Forall_inv_tail F)) as [Nl Ll].
  cbn [forallb]. rewrite De, Ne, Le, Nl, Ll. split; reflexivity.
Qed.

(** What a successful run returns: an object without [Multiplier] at any
    depth, whose lists hold objects. *)
Lemma process_data_output (v v' : value R) :
  process_data R v = Ok v' ->
  is_dict R v' = true
  /\ no_key_in R ["Multiplier"] v' = true
  /\ lists_hold_objects R v' = true.
Proof.
  revert v'.
  induction v as [ | b | n | x | s | t | l IHl | d IHd ] using (value_induction R);
    intros v' E; try discriminate.
  apply process_data_ok in E.
  destruct E as (d0 & d1 & d2 & E0 & -> & V & A).
  injection E0 as <-.
  set (Q := fun kv : string * value R =>
              no_key_in R ["Multiplier"] (snd kv) = true
              /\ lists_hold_objects R (snd kv) = true).
  assert (Q1 : Forall Q d1).
  { clear A. apply process_values_ok in V.
    induction V as [| [k x] [k1 x1] d d1 [_ C] _ IHV]; constructor.
    - apply Forall_inv in IHd. destruct IHd as [Px Cx]. simpl in Px, Cx, C.
      unfold Q. simpl.
      destruct x as [ | | | | | | l | dx ];
        try (injection C as <-; split; reflexivity).
      + cbn [process_child] in C. inv_bind C as l1 El. injection C as <-.
        apply map_result_ok in El. cbn [child_all] in Cx.
        cbn [no_key_in lists_hold_objects].
        apply (processed_elements l l1 Cx El).
      + cbn [process_child] in C. destruct (Px _ C) as (_ & Nx & Lx).
        split; assumption.
    - apply IHV. apply (Forall_inv_tail IHd). }
  apply apply_rules_effect in A. destruct A as ((K & _ & F) & _ & _).
  assert (Q2 : Forall Q d2).
  { apply F; [| exact Q1]. intros k v Sv. unfold Q. simpl.
    split; [apply scalar_no_key | apply scalar_lists_hold]; exact Sv. }
  assert (M2 : contains R "Multiplier" d2 = false).
  { rewrite K. destruct (contains R "Multiplier" d1); [| reflexivity].
    cbn. reflexivity. }
  rewrite Forall_forall in Q2.
  split; [reflexivity |]. split.
  - cbn [no_key_in forallb]. rewrite M2. cbn.
    apply forallb_forall. intros [k x] I. apply (Q2 _ I).
  - cbn [lists_hold_objects].
    apply forallb_forall. intros [k x] I. apply (Q2 _ I).
Qed.

End SecondRun.

(** C1, as the code has it.  A second run of [process_data] on the result of a
    successful run returns that result unchanged when no record of it, at any
    depth, has the key [Price] or the key [TimeStamp]. *)
Theorem process_data_twice (R : runtime) (v v' : value R) :
  process_data R v = Ok v' ->
  no_key_in R ["Price"; "TimeStamp"] v' = true ->
  process_data R v' = Ok v'.
Proof.
  intros E N. destruct (process_data_output R v v' E) as (D & M & L).
  apply process_data_fixed; assumption.
Qed.

Lemma process_data_twice_witness :
  process_data exact (VDict exact [("Demand", VFloat exact (-1 # 4)%Q)])
  = Ok (VDict exact [("Demand", VFloat exact (-1 # 4)%Q)]).
Proof.
  apply (process_data_twice exact (VDict exact demand_record)); reflexivity.
Defined.

(** C1, as stated, fails: the price rule keeps its trigger key [Price], now a
    float, and the second run raises [TypeError] on it. *)
Lemma process_data_not_idempotent :
  ~ (forall v v' : value exact,
       process_data exact v = Ok v' -> process_data exact v' = Ok v').
Proof.
  intros Idem.
  specialize (Idem (VDict exact price_record)
                   (VDict exact [("Price", VFloat exact (10 # 1)%Q); ("Currency", VInt 840)])
                   eq_refl).
  discriminate Idem.
Qed.

Example price_record_second_run :
  process_data exact (VDict exact [("Price", VFloat exact (10 # 1)%Q); ("Currency", VInt 840)])
  = Raise TypeError.
Proof. reflexivity. Qed.

Example timestamp_record_second_run :
  process_data exact (VDict exact timestamp_record)
  = Ok (VDict exact [("TimeStamp", VTime exact 946684800)])
  /\ process_data exact (VDict exact [("TimeStamp", VTime exact 946684800)])
     = Raise TypeError.
Proof. split; reflexivity. Qed.

(** ** Records below the root *)

Section Nested.

Variable R : runtime.

Lemma follow_container (p : list step) (x : value R) (r : dict R) :
  follow R p x = Some (VDict R r) -> is_container R x = true.
Proof.
  destruct p as [| [k | i] p]; simpl.
  - intros E. injection E as ->. reflexivity.
  - destruct x; try discriminate. reflexivity.
  - destruct x; try discriminate. reflexivity.
Qed.

Lemma process_child_container (x x1 : value R) :
  is_container R x = true ->
  process_child R (process_data R) x = Ok x1 ->
  is_container R x1 = true.
Proof.
  destruct x as [ | | | | | | l | d ]; try discriminate; intros _ E.
  - cbn [process_child] in E. inv_bind E as l1 El. injection E as <-. reflexivity.
  - cbn [process_child] in E. apply process_data_ok in E.
    destruct E as (_ & _ & d2 & _ & -> & _). reflexivity.
Qed.

Lemma Forall2_nth_error {A B : Type} (Q : A -> B -> Prop) (l : list A) (l1 : list B)
  (i : nat) (e : A) :
  Forall2 Q l l1 -> nth_error l i = Some e ->
  exists e1, nth_error l1 i = Some e1 /\ Q e e1.
Proof.
  intros F. revert i. induction F as [| a b l l1 Qab _ IH]; intros [| i]; simpl;
    try discriminate.
  - intros E. injection E as <-. exists b. split; [reflexivity | exact Qab].
  - apply IH.
Qed.

(** The traversal reaches every record a chain of keys and positions leads
    to, and leaves at the same place what [process_data] makes of it. *)
Lemma follow_processed (p : list step) :
  forall (x x1 : value R) (r : dict R),
    process_child R (process_data R) x = Ok x1 ->
    follow R p x = Some (VDict R r) ->
    exists r',
      process_data R (VDict R r) = Ok (VDict R r')
      /\ (survives R p x = true -> follow R p x1 = Some (VDict R r')).
Proof.
  induction p as [| [k | i] p IH]; intros x x1 r C F.
  - cbn [follow] in F. injection F as ->. cbn [process_child] in C.
    destruct (process_data_ok R _ _ C) as (_ & _ & d2 & _ & E & _). subst x1.
    exists d2. split; [exact C | reflexivity].
  - destruct x as [ | | | | | | l | d ]; try discriminate.
    cbn [follow] in F. destruct (lookup R k d) as [y |] eqn:Ly; [| discriminate].
    cbn [process_child] in C.
    destruct (process_data_ok R _ _ C) as (d0 & d1 & d2 & E0 & E2 & V & A).
    injection E0 as <-. subst x1.
    destruct (process_values_lookup R _ d d1 k y V Ly) as (y1 & Ly1 & Cy).
    destruct (IH y y1 r Cy F) as (r' & Er & Sr).
    exists r'. split; [exact Er |].
    cbn [survives]. rewrite Ly. intros S.
    apply andb_true_iff in S. destruct S as [Keep Sy].
    apply negb_true_iff in Keep.
    apply apply_rules_effect in A. destruct A as (_ & L & _).
    cbn [follow]. rewrite (L k y1 Ly1).
    + apply Sr. exact Sy.
    + apply (process_child_container y y1); [| exact Cy].
      apply (follow_container p y r F).
    + rewrite (contains_same_keys R _ d d1 (process_values_keys R _ d d1 V)).
      cbn [existsb]. rewrite orb_false_r. exact Keep.
  - destruct x as [ | | | | | | l | d ]; try discriminate.
    cbn [follow] in F. destruct (nth_error l i) as [e |] eqn:Le; [| discriminate].
    cbn [process_child] in C. inv_bind C as l1 El. injection C as <-.
    apply map_result_ok in El.
    destruct (Forall2_nth_error _ l l1 i e El Le) as (e1 & Le1 & Ee).
    assert (Ce : process_child R (process_data R) e = Ok e1).
    { destruct (process_data_ok R _ _ Ee) as (de & _ & _ & -> & _). exact Ee. }
    destruct (IH e e1 r Ce F) as (r' & Er & Sr).
    exists r'. split; [exact Er |].
    cbn [survives follow]. rewrite Le, Le1. exact Sr.
Qed.

End Nested.

(** C2. When normalisation of a response completes, every record a chain of
    object keys and list positions leads to is normalised by the same
    [process_data] as a record at the top, and the result stands at the same
    place of the normalised response, as long as the chain does not go
    through a [DigitsLeft] or [SuppressLeadingZero] entry of a record with
    [Multiplier], which the rule of that record deletes. *)
Theorem nested_record_normalized (R : runtime) (root root' : value R)
  (p : list step) (r : dict R) :
  process_data R root = Ok root' ->
  follow R p root = Some (VDict R r) ->
  exists r',
    process_data R (VDict R r) = Ok (VDict R r')
    /\ (survives R p root = true -> follow R p root' = Some (VDict R r')).
Proof.
  intros E F. apply (follow_processed R p root root' r); [| exact F].
  destruct (process_data_ok R _ _ E) as (d & _ & _ & -> & _). exact E.
Qed.

Lemma nested_record_normalized_witness :
  follow exact leaf_place
    (VDict exact
       [ ("Device",
          VList exact
            [ VDict exact
                [ ("InstantaneousDemand",
                   VDict exact [("Demand", VFloat exact (-1 # 4)%Q)]) ] ]) ])
  = Some (VDict exact [("Demand", VFloat exact (-1 # 4)%Q)]).
Proof.
  destruct (nested_record_normalized exact nested_response
              (VDict exact
                 [ ("Device",
                    VList exact
                      [ VDict exact
                          [ ("InstantaneousDemand",
                             VDict exact [("Demand", VFloat exact (-1 # 4)%Q)]) ] ]) ])
              leaf_place demand_record eq_refl eq_refl) as (r' & Er & Sr).
  change (Ok (VDict exact [("Demand", VFloat exact (-1 # 4)%Q)]) = Ok (VDict exact r'))
    in Er.
  injection Er as <-. apply Sr. reflexivity.
Defined.

Example nested_response_leaf :
  process_data exact (VDict exact demand_record)
  = Ok (VDict exact [("Demand", VFloat exact (-1 # 4)%Q)])
  /\ option_map (follow exact leaf_place)
       (match process_data exact nested_response with Ok v => Some v | Raise _ => None end)
     = Some (Some (VDict exact [("Demand", VFloat exact (-1 # 4)%Q)])).
Proof. split; reflexivity. Qed.

(** A record held under [DigitsLeft] is visited, then deleted with the key. *)
Example record_under_digits_left_deleted :
  follow exact [Key "DigitsLeft"] record_under_digits_left
  = Some (VDict exact demand_record)
  /\ process_data exact record_under_digits_left
     = Ok (VDict exact [("Demand", VFloat exact (7 # 4)%Q)]).
Proof. split; reflexivity. Qed.

(** ** When the second run fails

    The condition of [process_data_twice] cannot be dropped anywhere: a
    [Price] or a [TimeStamp] at any depth of a normalised response makes the
    second run raise. *)

Section SecondRunFails.

Variable R : runtime.

Lemma forallb_false_In {A : Type} (f : A -> bool) (l : list A) :
  forallb f l = false -> exists x, In x l /\ f x = false.
Proof.
  induction l as [| a l IH]; simpl; [discriminate |].
  destruct (f a) eqn:Fa; simpl.
  - intros E. destruct (IH E) as (x & I & Fx). exists x. split; [right |]; assumption.
  - intros _. exists a. split; [left; reflexivity | exact Fa].
Qed.

Lemma Forall2_In_r {A B : Type} (Q : A -> B -> Prop) (l : list A) (l1 : list B) (b : B) :
  Forall2 Q l l1 -> In b l1 -> exists a, In a l /\ Q a b.
Proof.
  induction 1 as [| a b' l l1 Qab _ IH]; simpl; [intros [] |].
  intros [-> | I].
  - exists a. split; [left; reflexivity | exact Qab].
  - destruct (IH I) as (a' & Ia & Qa). exists a'. split; [right |]; assumption.
Qed.

(** After the rules, [Price] and [TimeStamp] do not hold strings. *)
Lemma apply_rules_converted (d d' : dict R) :
  apply_rules R d = Ok d' ->
  not_a_string R (lookup R "Price" d') /\ not_a_string R (lookup R "TimeStamp" d').
Proof.
  unfold apply_rules. intros A.
  inv_bind A as da Ea. inv_bind A as dp Ep. clear Ea.
  assert (Pp : not_a_string R (lookup R "Price" dp)).
  { unfold contains in Ep. destruct (lookup R "Price" da) eqn:L.
    - unfold convert_price in Ep.
      inv_bind Ep as pv Gp. inv_bind Ep as p Ip. inv_bind Ep as tv Gt.
      inv_bind Ep as t It. inv_bind Ep as q Eq. inv_bind Ep as cv Gc.
      inv_bind Ep as c Ic. apply delitem_ok in Ep. destruct Ep as [_ ->].
      rewrite lookup_remove, !lookup_setitem. cbn. intros s. discriminate.
    - injection Ep as <-. rewrite L. intros s. discriminate. }
  unfold contains in A. destruct (lookup R "TimeStamp" dp) eqn:L.
  - unfold convert_timestamp in A.
    inv_bind A as w Gw. inv_bind A as n In'. inv_bind A as t Et. injection A as <-.
    rewrite !lookup_setitem. cbn. split; [exact Pp | intros s; discriminate].
  - injection A as <-. split; [exact Pp |]. rewrite L. intros s. discriminate.
Qed.

(** Without [Multiplier], the rules complete only if [Price] and
    [TimeStamp], when present, hold strings. *)
Lemma apply_rules_reads_strings (d d' : dict R) :
  contains R "Multiplier" d = false ->
  apply_rules R d = Ok d' ->
  (contains R "Price" d = true -> ~ not_a_string R (lookup R "Price" d))
  /\ (contains R "Price" d = false -> contains R "TimeStamp" d = true ->
      ~ not_a_string R (lookup R "TimeStamp" d)).
Proof.
  intros M A. unfold apply_rules in A. rewrite M in A. cbn [bind] in A.
  inv_bind A as dp Ep. split.
  - intros P N. rewrite P in Ep. unfold convert_price in Ep.
    inv_bind Ep as pv Gp. inv_bind Ep as p Ip.
    apply getitem_ok in Gp. apply int0_ok in Ip. destruct Ip as (s & -> & _).
    apply (N s Gp).
  - intros P T N. rewrite P in Ep. injection Ep as <-. rewrite T in A.
    unfold convert_timestamp in A.
    inv_bind A as w Gw. inv_bind A as n In'.
    apply getitem_ok in Gw. apply int0_ok in In'. destruct In' as (s & -> & _).
    apply (N s Gw).
Qed.

Lemma process_values_not_a_string (d d1 : dict R) (k : string) :
  process_values R (process_data R) d = Ok d1 ->
  not_a_string R (lookup R k d) -> not_a_string R (lookup R k d1).
Proof.
  intros V N s L1.
  destruct (lookup R k d) as [x |] eqn:L.
  - destruct (process_values_lookup R _ d d1 k x V L) as (x1 & Lx1 & C).
    rewrite L1 in Lx1. injection Lx1 as <-.
    destruct x as [ | | | | s0 | | l | dx ]; try discriminate C.
    + injection C as ->. apply (N s eq_refl).
    + cbn [process_child] in C. inv_bind C as l1 El. discriminate C.
    + cbn [process_child] in C. apply process_data_ok in C.
      destruct C as (_ & _ & d2 & _ & E & _). discriminate E.
  - assert (C : contains R k d1 = contains R k d)
      by (apply contains_same_keys, (process_values_keys R _ d d1 V)).
    unfold contains in C. rewrite L, L1 in C. discriminate C.
Qed.

(** A record that has [Price] or [TimeStamp] converted is refused by its own
    rules. *)
Lemma converted_record_raises (d : dict R) :
  contains R "Multiplier" d = false ->
  not_a_string R (lookup R "Price" d) ->
  not_a_string R (lookup R "TimeStamp" d) ->
  contains R "Price" d || contains R "TimeStamp" d = true ->
  raises (process_data R (VDict R d)).
Proof.
  intros M NP NT PT. apply raises_not_ok. intros w E.
  apply process_data_ok in E.
  destruct E as (d0 & d3 & d4 & E0 & _ & V & A). injection E0 as <-.
  assert (K := process_values_keys R _ d d3 V).
  rewrite <- (contains_same_keys R _ d d3 K) in M.
  rewrite <- !(fun k => contains_same_keys R k d d3 K) in PT.
  destruct (apply_rules_reads_strings d3 d4 M A) as [RP RT].
  destruct (contains R "Price" d3) eqn:P.
  - apply (RP eq_refl). apply (process_values_not_a_string d d3 _ V NP).
  - simpl in PT. apply (RT eq_refl PT).
    apply (process_values_not_a_string d d3 _ V NT).
Qed.

(** X17. A second run on the result of a successful run raises as soon as
    one record of that result, at any depth, has the key [Price] or the key
    [TimeStamp]. *)
Lemma second_run_raises (v : value R) :
  forall v', process_data R v = Ok v' ->
             no_key_in R ["Price"; "TimeStamp"] v' = false ->
             raises (process_data R v').
Proof.
  induction v as [ | b | n | x | s | t | l IHl | d IHd ] using (value_induction R);
    intros v' E N; try discriminate.
  destruct (process_data_output R _ _ E) as (_ & NM & _).
  apply process_data_ok in E.
  destruct E as (d0 & d1 & d2 & E0 & -> & V & A). injection E0 as <-.
  cbn [no_key_in forallb] in N, NM.
  apply andb_true_iff in NM. destruct NM as [M2 _].
  rewrite andb_true_r in M2. apply negb_true_iff in M2.
  destruct (apply_rules_converted d1 d2 A) as [NP NT].
  apply andb_false_iff in N. destruct N as [Top | Below].
  - apply (converted_record_raises d2 M2 NP NT).
    rewrite andb_true_r in Top.
    destruct (contains R "Price" d2); [reflexivity |].
    destruct (contains R "TimeStamp" d2); [reflexivity | discriminate].
  - apply forallb_false_In in Below. destruct Below as ([k x2] & I2 & Nx).
    assert (Cx : is_container R x2 = true).
    { destruct (is_container R x2) eqn:C; [reflexivity |].
      rewrite (scalar_no_key R _ x2 C) in Nx. discriminate. }
    assert (I1 : In (k, x2) d1).
    { apply apply_rules_effect in A. destruct A as ((_ & _ & F) & _ & _).
      assert (Q2 : Forall (fun kv => is_container R (snd kv) = true -> In kv d1) d2).
      { apply F.
        - intros k' w Sw. simpl. congruence.
        - apply Forall_forall. intros kv Ikv _. exact Ikv. }
      rewrite Forall_forall in Q2. apply (Q2 _ I2 Cx). }
    apply process_values_ok in V.
    destruct (Forall2_In_r _ d d1 (k, x2) V I1) as ([k0 x] & I0 & _ & C).
    simpl in C. rewrite Forall_forall in IHd.
    destruct (IHd _ I0) as [Px Ch]. simpl in Px, Ch.
    assert (Rx : raises (process_child R (process_data R) x2)).
    { destruct x as [ | | | | | | l | dx ];
        try (injection C as <-; discriminate Cx).
      - cbn [process_child] in C. inv_bind C as l2 El. injection C as <-.
        cbn [no_key_in] in Nx. apply forallb_false_In in Nx.
        destruct Nx as (e2 & Ie2 & Ne2).
        apply map_result_ok in El.
        destruct (Forall2_In_r _ l l2 e2 El Ie2) as (e & Ie & Ee).
        cbn [child_all] in Ch. rewrite Forall_forall in Ch.
        destruct (map_result_raises (process_data R) l2 e2 Ie2 (Ch e Ie e2 Ee Ne2))
          as [err Err].
        exists err. cbn [process_child]. rewrite Err. reflexivity.
      - cbn [process_child] in C.
        destruct (process_data_ok R _ _ C) as (_ & _ & dx2 & _ & -> & _).
        cbn [process_child]. apply (Px _ C Nx). }
    destruct (process_values_raises R (process_data R) d2 k x2 I2 Rx) as [err Err].
    exists err. rewrite process_data_dict, Err. reflexivity.
Qed.

End SecondRunFails.

(** * Further properties of the client *)

Section ClientFacts.

Variable R : runtime.
Variable H : host R.

Lemma post_cmd_final_sends (self : Eagle) (address post_data : string)
  (log : list request) :
  snd (post_cmd_final R H self address post_data log)
  = (log ++ [ {| req_address := address;
                 req_headers := _headers self;
                 req_data := post_data |} ])%list.
Proof.
  unfold post_cmd_final, io_bind, requests_post, io_ret.
  destruct (server H log _) as [rsp | e]; [| reflexivity].
  destruct (if negb (status_code rsp =? 200) then raise_for_status rsp else Ok tt);
    [| reflexivity].
  destruct (or_raise _ (json_loads H (TEMP_RESPONSE_FIX (text rsp)))); reflexivity.
Qed.

Lemma existsb_eqb_In (k : string) (l : list string) :
  existsb (String.eqb k) l = true <-> In k l.
Proof.
  rewrite existsb_exists. split.
  - intros (x & I & E). apply String.eqb_eq in E. subst x. exact I.
  - intros I. exists k. split; [exact I | apply String.eqb_refl].
Qed.

End ClientFacts.

(** X1. A command of either dialect sends exactly one request, whatever
    comes of it (an exception of the transport, an HTTP error, a text that
    is not JSON, a record that cannot be normalised): the remote dialect to
    [/cgi-bin/post_manager] with the body of [make_cmd], the local dialect
    to [/cgi-bin/cgi_manager] with the body of [make_local_cmd]. *)
Theorem commands_send_one_request (R : runtime) (H : host R) (self : Eagle)
  (command : string) (kws : list (string * string)) (log : list request) :
  snd (post_cmd R H self command kws log)
  = (log ++ [ {| req_address := addr self ++ "/cgi-bin/post_manager";
                 req_headers := _headers self;
                 req_data := make_cmd command kws |} ])%list
  /\ snd (post_local_cmd R H self command kws log)
     = (log ++ [ {| req_address := addr self ++ "/cgi-bin/cgi_manager";
                    req_headers := _headers self;
                    req_data := make_local_cmd command kws |} ])%list.
Proof.
  split; [unfold post_cmd | unfold post_local_cmd]; apply post_cmd_final_sends.
Qed.

(** X2. An answer with a status from 400 to 599 raises [HTTPError] with that
    status: the text is neither repaired nor parsed, and the request counts
    as sent. *)
Theorem post_cmd_final_http_error (R : runtime) (H : host R) (self : Eagle)
  (address post_data : string) (log : list request) (rsp : response) :
  server H log {| req_address := address; req_headers := _headers self;
                  req_data := post_data |} = Ok rsp ->
  400 <= status_code rsp < 600 ->
  post_cmd_final R H self address post_data log
  = (Raise (HTTPError (status_code rsp)),
     (log ++ [ {| req_address := address; req_headers := _headers self;
                  req_data := post_data |} ])%list).
Proof.
  intros S B. unfold post_cmd_final, io_bind, requests_post, io_ret.
  rewrite S. unfold raise_for_status.
  replace (status_code rsp =? 200) with false by (symmetry; apply Z.eqb_neq; lia).
  replace (400 <=? status_code rsp) with true by (symmetry; apply Z.leb_le; lia).
  replace (status_code rsp <? 600) with true by (symmetry; apply Z.ltb_lt; lia).
  reflexivity.
Qed.

Lemma post_cmd_final_http_error_witness :
  post_cmd_final exact not_found_host eagle0 "http://eagle" "<Command/>" []
  = (Raise (HTTPError 404),
     [ {| req_address := "http://eagle"; req_headers := _headers eagle0;
          req_data := "<Command/>" |} ]).
Proof.
  apply (post_cmd_final_http_error exact not_found_host eagle0 "http://eagle"
           "<Command/>" [] {| status_code := 404; text := "Not Found" |});
    [reflexivity | simpl; lia].
Defined.

(** X3. Only the statuses from 400 to 599 are errors.  With any other
    status, 200 or not, the text is repaired, parsed and normalised: the
    result is the [ValueError] of the parser, or what [process_data] makes of
    the parsed response. *)
Theorem post_cmd_final_other_status (R : runtime) (H : host R) (self : Eagle)
  (address post_data : string) (log : list request) (rsp : response) :
  server H log {| req_address := address; req_headers := _headers self;
                  req_data := post_data |} = Ok rsp ->
  status_code rsp < 400 \/ 600 <= status_code rsp ->
  fst (post_cmd_final R H self address post_data log)
  = (data <- or_raise (ValueError "Invalid JSON format: %s")
                      (json_loads H (TEMP_RESPONSE_FIX (text rsp))) ;;
     process_data R data).
Proof.
  intros S B. unfold post_cmd_final, io_bind, requests_post, io_ret.
  rewrite S. unfold raise_for_status.
  assert (E : (if negb (status_code rsp =? 200)
               then if (400 <=? status_code rsp) && (status_code rsp <? 600)
                    then Raise (HTTPError (status_code rsp)) else Ok tt
               else Ok tt) = Ok tt).
  { destruct (status_code rsp =? 200); [reflexivity |]. cbn [negb].
    replace ((400 <=? status_code rsp) && (status_code rsp <? 600)) with false;
      [reflexivity |].
    symmetry. apply andb_false_iff.
    destruct B; [left; apply Z.leb_gt | right; apply Z.ltb_ge]; lia. }
  rewrite E.
  destruct (or_raise _ (json_loads H (TEMP_RESPONSE_FIX (text rsp)))); reflexivity.
Qed.

Lemma post_cmd_final_other_status_witness :
  fst (post_cmd_final exact no_content_host eagle0 "http://eagle" "<Command/>" [])
  = Ok (VDict exact []).
Proof.
  apply (post_cmd_final_other_status exact no_content_host eagle0 "http://eagle"
           "<Command/>" [] {| status_code := 204; text := "{}" |});
    [reflexivity | left; simpl; lia].
Defined.

(** X4. [get_schedule] takes a missing event for the empty name.  An event
    of [EVENT_VALS] is posted as the [Event] parameter of [get_schedule]; any
    other raises [ValueError] naming it, and nothing is sent. *)
Theorem get_schedule_event_check (R : runtime) (H : host R) (self : Eagle)
  (event : option string) (log : list request) :
  let name := match event with Some e => e | None => "" end in
  (In name EVENT_VALS ->
     get_schedule R H self event log
     = post_cmd R H self "get_schedule" [("Event", name)] log)
  /\ (~ In name EVENT_VALS ->
        get_schedule R H self event log
        = (Raise (ValueError ("'" ++ name ++ "' is not a valid event")), log)).
Proof.
  intros name. unfold get_schedule, io_bind, io_ret, SAFETY_ON. fold name.
  destruct (existsb (String.eqb name) EVENT_VALS) eqn:E; cbn [andb negb].
  - split; [reflexivity |]. intros N. apply existsb_eqb_In in E. contradiction.
  - split; [| reflexivity]. intros I. apply existsb_eqb_In in I. congruence.
Qed.

Lemma get_schedule_event_check_witness :
  get_schedule exact quiet_host eagle0 None []
  = post_cmd exact quiet_host eagle0 "get_schedule" [("Event", "")] []
  /\ get_schedule exact quiet_host eagle0 (Some "Price") []
     = (Raise (ValueError "'Price' is not a valid event"), []).
Proof.
  split.
  - apply (get_schedule_event_check exact quiet_host eagle0 None []).
    left. reflexivity.
  - apply (get_schedule_event_check exact quiet_host eagle0 (Some "Price") []).
    simpl. intros I.
    repeat (destruct I as [I | I]; [discriminate I |]). exact I.
Defined.

(** X5. The envelope repair is idempotent: a repaired text begins with a
    brace, so it is not repaired again. *)
Theorem TEMP_RESPONSE_FIX_idempotent (s : string) :
  TEMP_RESPONSE_FIX (TEMP_RESPONSE_FIX s) = TEMP_RESPONSE_FIX s.
Proof.
  assert (B : forall t, TEMP_RESPONSE_FIX ("{" ++ t) = "{" ++ t) by reflexivity.
  destruct (startswith s (dquote ++ "HistoryData" ++ dquote)
            || startswith s (dquote ++ "ScheduleList" ++ dquote)) eqn:E.
  - assert (W : TEMP_RESPONSE_FIX s = "{" ++ s ++ "}")
      by (unfold TEMP_RESPONSE_FIX; rewrite E; reflexivity).
    rewrite W. apply B.
  - assert (W : TEMP_RESPONSE_FIX s = s)
      by (unfold TEMP_RESPONSE_FIX; rewrite E; reflexivity).
    rewrite !W. reflexivity.
Qed.

Lemma render_params_app (kws1 kws2 : list (string * string)) :
  render_params (kws1 ++ kws2) = render_params kws1 ++ render_params kws2.
Proof.
  induction kws1 as [| [k v] kws1 IH]; [reflexivity |].
  cbn [render_params app]. rewrite IH.
  rewrite !app_assoc_string. reflexivity.
Qed.

(** X6. The two dialects render parameters alike, one tag per parameter in
    the order given: the body of a command with the parameters [kws1 ++ kws2]
    is the head of its dialect, the tags of [kws1], the tags of [kws2] and the
    closing tag of the dialect. *)
Theorem commands_render_parameters_in_order (command : string)
  (kws1 kws2 : list (string * string)) :
  make_cmd command (kws1 ++ kws2)
  = CMD_TOP_TEMPLATE command ++ render_params kws1 ++ render_params kws2
    ++ "</Command>" ++ newline
  /\ make_local_cmd command (kws1 ++ kws2)
     = LOCAL_CMD_TOP_TEMPLATE command ++ render_params kws1 ++ render_params kws2
       ++ "</LocalCommand>" ++ newline.
Proof.
  unfold make_cmd, make_local_cmd. rewrite render_params_app, !app_assoc_string.
  split; reflexivity.
Qed.

(** * Further properties of the normaliser *)

(** X7. Times go out and come back through the same offset: the text
    [get_history_data] sends for a time [t] is read back by [int(., 0)] as
    [t - EPOCH_DELTA], before or after the epoch of the device, and a record
    whose [TimeStamp] is that text is normalised to the local time of [t]. *)
Theorem history_time_round_trip (R : runtime) (t : Z) (tm : struct_time R) :
  localtime R t = Ok tm ->
  int0 R (VStr (hex (t - EPOCH_DELTA R))) = Ok (t - EPOCH_DELTA R)
  /\ process_data R (VDict R [("TimeStamp", VStr (hex (t - EPOCH_DELTA R)))])
     = Ok (VDict R [("TimeStamp", VTime R tm)]).
Proof.
  intros L.
  assert (I : int0 R (VStr (hex (t - EPOCH_DELTA R))) = Ok (t - EPOCH_DELTA R))
    by apply (int0_str R _ _ (parse_int_hex _ _)).
  split; [exact I |].
  rewrite process_data_dict.
  change (process_values R (process_data R)
            [("TimeStamp", VStr (hex (t - EPOCH_DELTA R)))])
    with (Ok [("TimeStamp", @VStr R (hex (t - EPOCH_DELTA R)))]).
  cbn [bind]. unfold apply_rules.
  change (contains R "Multiplier" [("TimeStamp", VStr (hex (t - EPOCH_DELTA R)))])
    with false.
  cbn [bind].
  change (contains R "Price" [("TimeStamp", VStr (hex (t - EPOCH_DELTA R)))])
    with false.
  cbn [bind].
  change (contains R "TimeStamp" [("TimeStamp", VStr (hex (t - EPOCH_DELTA R)))])
    with true.
  cbv beta iota. unfold convert_timestamp.
  change (getitem R "TimeStamp" [("TimeStamp", VStr (hex (t - EPOCH_DELTA R)))])
    with (Ok (@VStr R (hex (t - EPOCH_DELTA R)))).
  cbn [bind]. rewrite I. cbn [bind].
  replace (t - EPOCH_DELTA R + EPOCH_DELTA R) with t by lia.
  rewrite L. reflexivity.
Qed.

Lemma history_time_round_trip_witness :
  int0 exact (VStr "-0xe10") = Ok (-3600)
  /\ process_data exact (VDict exact [("TimeStamp", VStr "-0xe10")])
     = Ok (VDict exact [("TimeStamp", VTime exact 946681200)]).
Proof. apply (history_time_round_trip exact 946681200 946681200). reflexivity. Defined.

(** X8. What the pack and unpack steps make of an unsigned 32-bit integer
    is the signed 32-bit integer with the same bits: it lies in
    [-2^31, 2^31) and is the argument modulo 2^32. *)
Theorem reinterpret_signed32_same_bits (u : Z) :
  0 <= u < 4294967296 ->
  exists n, reinterpret_signed32 u = Ok n
            /\ -2147483648 <= n < 2147483648
            /\ n mod 4294967296 = u.
Proof.
  intros Hu. rewrite reinterpret_signed32_spec by exact Hu.
  destruct (u <? 2147483648) eqn:E.
  - apply Z.ltb_lt in E. exists u. split; [reflexivity |].
    split; [lia | apply Z.mod_small; lia].
  - apply Z.ltb_ge in E. exists (u - 4294967296). split; [reflexivity |].
    split; [lia |]. symmetry. apply (Z.mod_unique _ _ (-1)); lia.
Qed.

Lemma reinterpret_signed32_same_bits_witness :
  exists n, reinterpret_signed32 2147483648 = Ok n
            /\ -2147483648 <= n < 2147483648
            /\ n mod 4294967296 = 2147483648.
Proof. apply (reinterpret_signed32_same_bits 2147483648). lia. Defined.

(** ** The keys of a normalised record, in order *)

Section KeyOrder.

Variable R : runtime.

Lemma keys_setitem_present (k : string) (v : value R) (d : dict R) :
  contains R k d = true -> map fst (setitem R k v d) = map fst d.
Proof.
  unfold contains. induction d as [| [k0 v0] d IH]; simpl; [discriminate |].
  destruct (String.eqb k k0); simpl.
  - intros _. reflexivity.
  - intros C. rewrite IH by exact C. reflexivity.
Qed.

Lemma kept_keys_nil (d : dict R) : kept_keys R [] d = map fst d.
Proof.
  unfold kept_keys. generalize (map fst d). intros l.
  induction l as [| k l IH]; [reflexivity |].
  cbn [filter existsb negb]. f_equal. exact IH.
Qed.

Lemma keys_remove (k : string) (d : dict R) :
  map fst (remove R k d) = kept_keys R [k] d.
Proof.
  unfold remove, kept_keys. induction d as [| [k0 v0] d IH]; simpl; [reflexivity |].
  rewrite orb_false_r, (String.eqb_sym k0 k).
  destruct (String.eqb k k0); simpl; rewrite IH; reflexivity.
Qed.

Lemma kept_keys_trans (ks1 ks2 : list string) (d d1 d2 : dict R) :
  map fst d1 = kept_keys R ks1 d ->
  map fst d2 = kept_keys R ks2 d1 ->
  map fst d2 = kept_keys R (ks1 ++ ks2) d.
Proof.
  unfold kept_keys. intros E1 E2. rewrite E2, E1. clear.
  induction (map fst d) as [| k l IH]; simpl; [reflexivity |].
  rewrite existsb_app.
  destruct (existsb (String.eqb k) ks1); simpl; [exact IH |].
  destruct (existsb (String.eqb k) ks2); simpl; rewrite IH; reflexivity.
Qed.

Lemma keys_delitem (k : string) (d d' : dict R) :
  delitem R k d = Ok d' -> map fst d' = kept_keys R [k] d.
Proof. intros D. apply delitem_ok in D. destruct D as [_ ->]. apply keys_remove. Qed.

Lemma keys_convert_summation (k : string) (f : float R) (nd : Z) (d d' : dict R) :
  convert_summation R k f nd d = Ok d' -> map fst d' = map fst d.
Proof.
  unfold convert_summation. intros C.
  inv_bind C as v Ev. inv_bind C as n En. inv_bind C as x Ex. injection C as <-.
  apply keys_setitem_present. apply (getitem_contains R k d v Ev).
Qed.

Lemma keys_convert_demand (d d' : dict R) :
  convert_demand R d = Ok d' -> map fst d' = kept_keys R scaling_keys d.
Proof.
  unfold convert_demand, delete_scaling_keys. intros C.
  inv_bind C as factor Ef. inv_bind C as n_dec En. inv_bind C as d1 E1.
  inv_bind C as d2 D2. inv_bind C as d3 D3. inv_bind C as d4 D4. inv_bind C as d5 D5.
  apply keys_delitem in C, D2, D3, D4, D5.
  assert (K1 : map fst d1 = kept_keys R [] d).
  { rewrite kept_keys_nil. destruct (contains R "Demand" d) eqn:Dm.
    - inv_bind E1 as v Ev. inv_bind E1 as n Edec. inv_bind E1 as x Ex.
      injection E1 as <-. apply keys_setitem_present. exact Dm.
    - inv_bind E1 as ds Es.
      apply keys_convert_summation in Es, E1. congruence. }
  apply (kept_keys_trans [] scaling_keys d d1 d' K1).
  apply (kept_keys_trans ["Multiplier"] _ d1 d2 d' D2).
  apply (kept_keys_trans ["Divisor"] _ d2 d3 d' D3).
  apply (kept_keys_trans ["DigitsRight"] _ d3 d4 d' D4).
  apply (kept_keys_trans ["DigitsLeft"] ["SuppressLeadingZero"] d4 d5 d' D5 C).
Qed.

Lemma keys_convert_price (d d' : dict R) :
  convert_price R d = Ok d' -> map fst d' = kept_keys R ["TrailingDigits"] d.
Proof.
  unfold convert_price. intros C.
  inv_bind C as pv Gp. inv_bind C as p Ip. inv_bind C as tv Gt. inv_bind C as t It.
  inv_bind C as q Eq. inv_bind C as cv Gc. inv_bind C as c Ic.
  apply keys_delitem in C. rewrite C. unfold kept_keys. f_equal.
  rewrite keys_setitem_present by apply (getitem_contains R _ _ _ Gc).
  apply keys_setitem_present. apply (getitem_contains R _ _ _ Gp).
Qed.

Lemma keys_convert_timestamp (d d' : dict R) :
  convert_timestamp R d = Ok d' -> map fst d' = map fst d.
Proof.
  unfold convert_timestamp. intros C.
  inv_bind C as v Gv. inv_bind C as n In'. inv_bind C as t Et. injection C as <-.
  apply keys_setitem_present. apply (getitem_contains R _ _ _ Gv).
Qed.

Lemma keys_apply_rules (d d' : dict R) :
  apply_rules R d = Ok d' ->
  map fst d' = kept_keys R ((if contains R "Multiplier" d then scaling_keys else [])
                            ++ (if contains R "Price" d then ["TrailingDigits"] else [])) d.
Proof.
  intros A. assert (A' := A). apply apply_rules_effect in A'.
  unfold apply_rules in A. inv_bind A as da Ea. inv_bind A as dp Ep.
  assert (Ka : map fst da
               = kept_keys R (if contains R "Multiplier" d then scaling_keys else []) d).
  { destruct (contains R "Multiplier" d).
    - apply keys_convert_demand. exact Ea.
    - injection Ea as <-. symmetry. apply kept_keys_nil. }
  assert (Pa : contains R "Price" da = contains R "Price" d).
  { destruct (contains R "Multiplier" d) eqn:M.
    - apply convert_demand_rewritten in Ea. destruct Ea as ((K & _) & _).
      rewrite K. cbn. apply andb_true_r.
    - injection Ea as <-. reflexivity. }
  rewrite Pa in Ep.
  assert (Kp : map fst dp
               = kept_keys R (if contains R "Price" d then ["TrailingDigits"] else []) da).
  { destruct (contains R "Price" d).
    - apply keys_convert_price. exact Ep.
    - injection Ep as <-. symmetry. apply kept_keys_nil. }
  assert (Kt : map fst d' = map fst dp).
  { destruct (contains R "TimeStamp" dp).
    - apply keys_convert_timestamp. exact A.
    - injection A as <-. reflexivity. }
  rewrite Kt. apply (kept_keys_trans _ _ d da dp Ka Kp).
Qed.

End KeyOrder.

(** X9. Normalisation adds no key and moves none: the keys of a normalised
    record are the keys of the record in their order, less the five scaling
    keys when it had [Multiplier] and less [TrailingDigits] when it had
    [Price]. *)
Theorem process_data_keeps_key_order (R : runtime) (d d' : dict R) :
  process_data R (VDict R d) = Ok (VDict R d') ->
  map fst d'
  = kept_keys R ((if contains R "Multiplier" d then scaling_keys else [])
                 ++ (if contains R "Price" d then ["TrailingDigits"] else [])) d.
Proof.
  intros E. apply process_data_ok in E.
  destruct E as (d0 & d1 & d2 & E0 & E2 & V & A).
  injection E0 as <-. injection E2 as <-.
  apply process_values_keys in V. apply keys_apply_rules in A.
  rewrite A. unfold kept_keys.
  rewrite !(fun k => contains_same_keys R k d d1 V), V. reflexivity.
Qed.

Lemma process_data_keeps_key_order_witness :
  map fst [ ("DeviceMacId", @VStr exact "0xd8d5b9000000abcd");
            ("Price", VFloat exact (10 # 1)%Q);
            ("Currency", VInt 840);
            ("TimeStamp", VTime exact 946684800) ]
  = kept_keys exact ["TrailingDigits"] labelled_price_record.
Proof.
  apply (process_data_keeps_key_order exact labelled_price_record). reflexivity.
Defined.

(** ** What the rules store, and what they leave alone *)

Section Fields.

Variable R : runtime.

(** Splits [existsb (String.eqb k) l = false], for a list [l] given in
    full, into the inequalities of [k] and rewrites the goal with them. *)
Ltac other_key N :=
  cbn [existsb app rule_keys scaling_keys] in N;
  repeat (let E := fresh "Ne" in
          apply orb_false_iff in N; destruct N as [E N]; try rewrite E);
  clear N.

Lemma scaled_float (n : Z) (f : float R) (nd : Z) (x : value R) :
  scaled R n f nd = Ok x -> exists r, x = VFloat R r.
Proof.
  unfold scaled. intros S.
  inv_bind S as y Ey. inv_bind S as r Er. injection S as <-.
  exists r. reflexivity.
Qed.

Lemma delete_scaling_keys_ok (d d' : dict R) :
  delete_scaling_keys R d = Ok d' ->
  d' = remove R "SuppressLeadingZero"
         (remove R "DigitsLeft"
            (remove R "DigitsRight" (remove R "Divisor" (remove R "Multiplier" d)))).
Proof.
  unfold delete_scaling_keys. intros C.
  inv_bind C as d2 D2. inv_bind C as d3 D3. inv_bind C as d4 D4. inv_bind C as d5 D5.
  apply delitem_ok in C, D2, D3, D4, D5.
  destruct C as [_ ->], D5 as [_ ->], D4 as [_ ->], D3 as [_ ->], D2 as [_ ->].
  reflexivity.
Qed.

(** The two shapes of a successful [convert_demand]. *)
Lemma convert_demand_ok (d d' : dict R) :
  convert_demand R d = Ok d' ->
  exists factor n_dec d1,
    demand_factor R d = Ok factor /\ demand_n_dec R d = Ok n_dec
    /\ d' = remove R "SuppressLeadingZero"
              (remove R "DigitsLeft"
                 (remove R "DigitsRight" (remove R "Divisor" (remove R "Multiplier" d1))))
    /\ ((contains R "Demand" d = true
         /\ exists v n x,
              lookup R "Demand" d = Some v /\ decode_demand R v = Ok n
              /\ scaled R n factor n_dec = Ok x
              /\ d1 = setitem R "Demand" x d)
        \/ (contains R "Demand" d = false
            /\ exists vd nd xd vr nr xr,
                 lookup R "SummationDelivered" d = Some vd /\ int0 R vd = Ok nd
                 /\ scaled R nd factor n_dec = Ok xd
                 /\ lookup R "SummationReceived" d = Some vr /\ int0 R vr = Ok nr
                 /\ scaled R nr factor n_dec = Ok xr
                 /\ d1 = setitem R "SummationReceived" xr
                           (setitem R "SummationDelivered" xd d))).
Proof.
  unfold convert_demand. intros C.
  inv_bind C as factor Ef. inv_bind C as n_dec En. inv_bind C as d1 E1.
  apply delete_scaling_keys_ok in C.
  exists factor, n_dec, d1. repeat (split; [assumption |]).
  destruct (contains R "Demand" d) eqn:Dm.
  - left. split; [reflexivity |].
    inv_bind E1 as v Ev. inv_bind E1 as n Edec. inv_bind E1 as x Ex.
    injection E1 as <-. apply getitem_ok in Ev.
    exists v, n, x. repeat split; assumption.
  - right. split; [reflexivity |].
    inv_bind E1 as ds Es. unfold convert_summation in Es, E1.
    inv_bind Es as vd Gd. inv_bind Es as nd Id. inv_bind Es as xd Xd.
    injection Es as <-.
    inv_bind E1 as vr Gr. inv_bind E1 as nr Ir. inv_bind E1 as xr Xr.
    injection E1 as <-.
    apply getitem_ok in Gd, Gr. rewrite lookup_setitem in Gr. cbn in Gr.
    exists vd, nd, xd, vr, nr, xr. repeat split; assumption.
Qed.

Lemma convert_demand_lookup_other (k : string) (d d' : dict R) :
  convert_demand R d = Ok d' ->
  existsb (String.eqb k)
    ("Demand" :: "SummationDelivered" :: "SummationReceived" :: scaling_keys) = false ->
  lookup R k d' = lookup R k d.
Proof.
  intros C N. apply convert_demand_ok in C.
  destruct C as (factor & n_dec & d1 & _ & _ & -> & Shape).
  rewrite !lookup_remove.
  destruct Shape as [(_ & v & n & x & _ & _ & _ & ->)
                    | (_ & vd & nd & xd & vr & nr & xr & _ & _ & _ & _ & _ & _ & ->)];
    rewrite !lookup_setitem; other_key N; reflexivity.
Qed.

Lemma convert_price_ok (d d' : dict R) :
  convert_price R d = Ok d' ->
  exists q c,
    d' = remove R "TrailingDigits"
           (setitem R "Currency" (VInt c) (setitem R "Price" (VFloat R q) d)).
Proof.
  unfold convert_price. intros C.
  inv_bind C as pv Gp. inv_bind C as p Ip. inv_bind C as tv Gt. inv_bind C as t It.
  inv_bind C as q Eq. inv_bind C as cv Gc. inv_bind C as c Ic.
  apply delitem_ok in C. destruct C as [_ ->]. exists q, c. reflexivity.
Qed.

Lemma convert_timestamp_ok (d d' : dict R) :
  convert_timestamp R d = Ok d' ->
  exists tm, d' = setitem R "TimeStamp" (VTime R tm) d.
Proof.
  unfold convert_timestamp. intros C.
  inv_bind C as v Gv. inv_bind C as n In'. inv_bind C as tm Et. injection C as <-.
  exists tm. reflexivity.
Qed.

(** The price and time stamp rules, which run last. *)
Lemma last_rules_ok (dp d' : dict R) (da : dict R) :
  (if contains R "Price" da then convert_price R da else Ok da) = Ok dp ->
  (if contains R "TimeStamp" dp then convert_timestamp R dp else Ok dp) = Ok d' ->
  (forall k, existsb (String.eqb k) ["Price"; "Currency"; "TrailingDigits"; "TimeStamp"]
             = false ->
             lookup R k d' = lookup R k da)
  /\ (contains R "Price" da = true ->
      exists q c, lookup R "Price" d' = Some (VFloat R q)
                  /\ lookup R "Currency" d' = Some (VInt c))
  /\ (contains R "TimeStamp" da = true ->
      exists tm, lookup R "TimeStamp" d' = Some (VTime R tm)).
Proof.
  intros Ep Et.
  assert (Tp : contains R "TimeStamp" dp = contains R "TimeStamp" da).
  { destruct (contains R "Price" da).
    - apply convert_price_rewritten in Ep. destruct Ep as ((K & _) & _).
      rewrite K. cbn. apply andb_true_r.
    - injection Ep as <-. reflexivity. }
  assert (Sp : dp = da \/ exists q c,
                 dp = remove R "TrailingDigits"
                        (setitem R "Currency" (VInt c)
                           (setitem R "Price" (VFloat R q) da))).
  { destruct (contains R "Price" da).
    - right. apply convert_price_ok. exact Ep.
    - left. injection Ep as <-. reflexivity. }
  assert (St : d' = dp \/ exists tm, d' = setitem R "TimeStamp" (VTime R tm) dp).
  { destruct (contains R "TimeStamp" dp).
    - right. apply convert_timestamp_ok. exact Et.
    - left. injection Et as <-. reflexivity. }
  split; [| split].
  - intros k N.
    destruct St as [-> | (tm & ->)], Sp as [-> | (q & c & ->)];
      rewrite ?lookup_setitem, ?lookup_remove, ?lookup_setitem;
      other_key N; reflexivity.
  - intros P. rewrite P in Ep. apply convert_price_ok in Ep.
    destruct Ep as (q & c & ->). exists q, c.
    destruct St as [-> | (tm & ->)];
      rewrite ?lookup_setitem, ?lookup_remove, ?lookup_setitem; split; reflexivity.
  - intros T. rewrite <- Tp in T. rewrite T in Et.
    apply convert_timestamp_ok in Et. destruct Et as (tm & ->).
    exists tm. rewrite lookup_setitem. reflexivity.
Qed.

Lemma apply_rules_fields (d d' : dict R) :
  apply_rules R d = Ok d' ->
  (forall k, existsb (String.eqb k) rule_keys = false -> lookup R k d' = lookup R k d)
  /\ (contains R "Price" d = true ->
      exists q c, lookup R "Price" d' = Some (VFloat R q)
                  /\ lookup R "Currency" d' = Some (VInt c))
  /\ (contains R "TimeStamp" d = true ->
      exists tm, lookup R "TimeStamp" d' = Some (VTime R tm))
  /\ (contains R "Multiplier" d = true -> contains R "Demand" d = true ->
      exists r, lookup R "Demand" d' = Some (VFloat R r))
  /\ (contains R "Multiplier" d = true -> contains R "Demand" d = false ->
      exists r1 r2, lookup R "SummationDelivered" d' = Some (VFloat R r1)
                    /\ lookup R "SummationReceived" d' = Some (VFloat R r2)).
Proof.
  unfold apply_rules. intros A.
  inv_bind A as da Ea. inv_bind A as dp Ep.
  destruct (last_rules_ok dp d' da Ep A) as (Lo & Lp & Lt).
  assert (Ka : forall k, existsb (String.eqb k) scaling_keys = false ->
                         contains R k da = contains R k d).
  { intros k N. destruct (contains R "Multiplier" d).
    - apply convert_demand_rewritten in Ea. destruct Ea as ((K & _) & _).
      rewrite K, N. apply andb_true_r.
    - injection Ea as <-. reflexivity. }
  split; [| split; [| split; [| split]]].
  - intros k N. rewrite Lo.
    + destruct (contains R "Multiplier" d).
      * apply (convert_demand_lookup_other k d da Ea).
        cbn [existsb rule_keys scaling_keys] in *.
        repeat (apply orb_false_iff in N; destruct N as [?E N]).
        rewrite E, E0, E1, E2, E3, E4, E5, E6. reflexivity.
      * injection Ea as <-. reflexivity.
    + cbn [existsb rule_keys] in *.
      repeat (apply orb_false_iff in N; destruct N as [?E N]).
      rewrite E7, E8, E9, E10. reflexivity.
  - intros P. apply Lp. rewrite Ka by reflexivity. exact P.
  - intros T. apply Lt. rewrite Ka by reflexivity. exact T.
  - intros M D. rewrite M in Ea. apply convert_demand_ok in Ea.
    destruct Ea as (factor & n_dec & d1 & _ & _ & -> & Shape).
    destruct Shape as [(_ & v & n & x & _ & _ & Sx & ->) | (D' & _)];
      [| congruence].
    destruct (scaled_float _ _ _ _ Sx) as (r & ->). exists r.
    rewrite Lo by reflexivity.
    rewrite !lookup_remove, lookup_setitem. reflexivity.
  - intros M D. rewrite M in Ea. apply convert_demand_ok in Ea.
    destruct Ea as (factor & n_dec & d1 & _ & _ & -> & Shape).
    destruct Shape as [(D' & _)
                      | (_ & vd & nd & xd & vr & nr & xr & _ & _ & Sd & _ & _ & Sr & ->)];
      [congruence |].
    destruct (scaled_float _ _ _ _ Sd) as (r1 & ->).
    destruct (scaled_float _ _ _ _ Sr) as (r2 & ->).
    exists r1, r2. rewrite !Lo by reflexivity.
    rewrite !lookup_remove, !lookup_setitem. split; reflexivity.
Qed.

End Fields.

(** X10. The types of the converted fields.  After normalisation of a record
    that had [Price], [Price] holds a float and [Currency] an integer; of a
    record that had [TimeStamp], [TimeStamp] holds a [struct_time]; of a
    record that had [Multiplier], [Demand] holds a float when the record had
    [Demand], and both summation fields hold floats when it had not. *)
Theorem process_data_field_types (R : runtime) (d d' : dict R) :
  process_data R (VDict R d) = Ok (VDict R d') ->
  (contains R "Price" d = true ->
     exists q c, lookup R "Price" d' = Some (VFloat R q)
                 /\ lookup R "Currency" d' = Some (VInt c))
  /\ (contains R "TimeStamp" d = true ->
        exists tm, lookup R "TimeStamp" d' = Some (VTime R tm))
  /\ (contains R "Multiplier" d = true -> contains R "Demand" d = true ->
        exists r, lookup R "Demand" d' = Some (VFloat R r))
  /\ (contains R "Multiplier" d = true -> contains R "Demand" d = false ->
        exists r1 r2, lookup R "SummationDelivered" d' = Some (VFloat R r1)
                      /\ lookup R "SummationReceived" d' = Some (VFloat R r2)).
Proof.
  intros E. apply process_data_ok in E.
  destruct E as (d0 & d1 & d2 & E0 & E2 & V & A).
  injection E0 as <-. injection E2 as <-.
  apply process_values_keys in V.
  rewrite <- !(fun k => contains_same_keys R k d d1 V).
  apply apply_rules_fields in A. destruct A as (_ & A). exact A.
Qed.

Lemma process_data_field_types_witness :
  (exists q c,
     lookup exact "Price"
       [ ("DeviceMacId", @VStr exact "0xd8d5b9000000abcd");
         ("Price", VFloat exact (10 # 1)%Q); ("Currency", VInt 840);
         ("TimeStamp", VTime exact 946684800) ] = Some (VFloat exact q)
     /\ lookup exact "Currency"
          [ ("DeviceMacId", @VStr exact "0xd8d5b9000000abcd");
            ("Price", VFloat exact (10 # 1)%Q); ("Currency", VInt 840);
            ("TimeStamp", VTime exact 946684800) ] = Some (VInt c))
  /\ (exists r, lookup exact "Demand" [("Demand", VFloat exact (-1 # 4)%Q)]
                = Some (VFloat exact r)).
Proof.
  split.
  - apply (process_data_field_types exact labelled_price_record); reflexivity.
  - apply (process_data_field_types exact demand_record); reflexivity.
Defined.

(** X11. Normalisation leaves the other fields alone: a field whose key none
    of the rules reads, writes or deletes, and whose value is neither an
    object nor a list, has the same value afterwards. *)
Theorem process_data_keeps_other_fields (R : runtime) (d d' : dict R)
  (k : string) (x : value R) :
  process_data R (VDict R d) = Ok (VDict R d') ->
  existsb (String.eqb k) rule_keys = false ->
  lookup R k d = Some x ->
  is_container R x = false ->
  lookup R k d' = Some x.
Proof.
  intros E N L S. apply process_data_ok in E.
  destruct E as (d0 & d1 & d2 & E0 & E2 & V & A).
  injection E0 as <-. injection E2 as <-.
  destruct (process_values_lookup R _ d d1 k x V L) as (x1 & L1 & C).
  rewrite (process_child_scalar R _ x S) in C. injection C as <-.
  apply apply_rules_fields in A. destruct A as (O & _).
  rewrite (O k N). exact L1.
Qed.

Lemma process_data_keeps_other_fields_witness :
  lookup exact "DeviceMacId"
    [ ("DeviceMacId", @VStr exact "0xd8d5b9000000abcd");
      ("Price", VFloat exact (10 # 1)%Q); ("Currency", VInt 840);
      ("TimeStamp", VTime exact 946684800) ]
  = Some (VStr "0xd8d5b9000000abcd").
Proof.
  apply (process_data_keeps_other_fields exact labelled_price_record); reflexivity.
Defined.

(** X12. On a record without [Demand] the rule scales both summation
    fields with the one factor and the one number of decimals, reading each
    as a plain integer: no 32-bit reinterpretation takes place. *)
Theorem convert_demand_summation (R : runtime) (d d' : dict R) :
  convert_demand R d = Ok d' ->
  contains R "Demand" d = false ->
  exists factor n_dec vd nd xd vr nr xr,
    demand_factor R d = Ok factor /\ demand_n_dec R d = Ok n_dec
    /\ lookup R "SummationDelivered" d = Some vd /\ int0 R vd = Ok nd
    /\ scaled R nd factor n_dec = Ok xd
    /\ lookup R "SummationDelivered" d' = Some xd
    /\ lookup R "SummationReceived" d = Some vr /\ int0 R vr = Ok nr
    /\ scaled R nr factor n_dec = Ok xr
    /\ lookup R "SummationReceived" d' = Some xr.
Proof.
  intros C D. apply convert_demand_ok in C.
  destruct C as (factor & n_dec & d1 & Ef & En & -> & Shape).
  destruct Shape as [(D' & _)
                    | (_ & vd & nd & xd & vr & nr & xr & Ld & Id & Sd & Lr & Ir & Sr & ->)];
    [congruence |].
  exists factor, n_dec, vd, nd, xd, vr, nr, xr.
  rewrite !lookup_remove, !lookup_setitem.
  repeat split; assumption || reflexivity.
Qed.

Lemma convert_demand_summation_witness :
  exists factor n_dec vd nd xd vr nr xr,
    demand_factor exact summation_record = Ok factor
    /\ demand_n_dec exact summation_record = Ok n_dec
    /\ lookup exact "SummationDelivered" summation_record = Some vd
    /\ int0 exact vd = Ok nd
    /\ scaled exact nd factor n_dec = Ok xd
    /\ lookup exact "SummationDelivered"
         [ ("SummationDelivered", VFloat exact (1073741824 # 1)%Q);
           ("SummationReceived", VFloat exact (2 # 1)%Q) ] = Some xd
    /\ lookup exact "SummationReceived" summation_record = Some vr
    /\ int0 exact vr = Ok nr
    /\ scaled exact nr factor n_dec = Ok xr
    /\ lookup exact "SummationReceived"
         [ ("SummationDelivered", VFloat exact (1073741824 # 1)%Q);
           ("SummationReceived", VFloat exact (2 # 1)%Q) ] = Some xr.
Proof.
  apply (convert_demand_summation exact summation_record); reflexivity.
Defined.

(** X13. [Demand] decides the branch: on a record that has it, the rule
    does not touch the summation fields, which keep what they held. *)
Theorem convert_demand_keeps_summation (R : runtime) (d d' : dict R) :
  convert_demand R d = Ok d' ->
  contains R "Demand" d = true ->
  lookup R "SummationDelivered" d' = lookup R "SummationDelivered" d
  /\ lookup R "SummationReceived" d' = lookup R "SummationReceived" d.
Proof.
  intros C D. apply convert_demand_ok in C.
  destruct C as (factor & n_dec & d1 & _ & _ & -> & Shape).
  destruct Shape as [(_ & v & n & x & _ & _ & _ & ->) | (D' & _)]; [| congruence].
  rewrite !lookup_remove, !lookup_setitem. split; reflexivity.
Qed.

Lemma convert_demand_keeps_summation_witness :
  lookup exact "SummationDelivered"
    [ ("SummationDelivered", @VStr exact "0x10"); ("SummationReceived", VStr "0x8");
      ("Demand", VFloat exact (-1 # 4)%Q) ]
  = Some (VStr "0x10")
  /\ lookup exact "SummationReceived"
       [ ("SummationDelivered", @VStr exact "0x10"); ("SummationReceived", VStr "0x8");
         ("Demand", VFloat exact (-1 # 4)%Q) ]
     = Some (VStr "0x8").
Proof.
  apply (convert_demand_keeps_summation exact demand_and_summation_record);
    reflexivity.
Defined.

(** X14. The price rule on a well formed record with non-negative
    [TrailingDigits]: the price becomes the quotient of the two integers
    [p] and [10^t], the currency the integer of its text, and
    [TrailingDigits] goes; the only failure is the [OverflowError] of a
    quotient too large for a float, never a division by zero. *)
Theorem convert_price_value (R : runtime) (d : dict R) (ps ts cs : string) (p t c : Z) :
  lookup R "Price" d = Some (VStr ps) ->
  parse_int (max_str_digits R) ps = Some p ->
  lookup R "TrailingDigits" d = Some (VStr ts) ->
  parse_int (max_str_digits R) ts = Some t ->
  0 <= t ->
  lookup R "Currency" d = Some (VStr cs) ->
  parse_int (max_str_digits R) cs = Some c ->
  (forall q, int_truediv R p (10 ^ t) = Some q ->
     exists d', convert_price R d = Ok d'
                /\ lookup R "Price" d' = Some (VFloat R q)
                /\ lookup R "Currency" d' = Some (VInt c)
                /\ contains R "TrailingDigits" d' = false)
  /\ (int_truediv R p (10 ^ t) = None -> convert_price R d = Raise OverflowError).
Proof.
  intros Lp Pp Lt Pt Ht Lc Pc.
  assert (Nz : 10 ^ t <> 0) by (apply Z.pow_nonzero; lia).
  assert (E : convert_price R d
              = (q <- or_raise OverflowError (int_truediv R p (10 ^ t)) ;;
                 Ok (remove R "TrailingDigits"
                       (setitem R "Currency" (VInt c)
                          (setitem R "Price" (VFloat R q) d))))).
  { unfold convert_price. unfold getitem at 1. rewrite Lp. cbn [or_raise bind].
    rewrite (int0_str R _ _ Pp). cbn [bind].
    unfold getitem at 1. rewrite Lt. cbn [or_raise bind].
    rewrite (int0_str R _ _ Pt). cbn [bind].
    unfold div_pow10.
    replace (0 <=? t) with true by (symmetry; apply Z.leb_le; exact Ht).
    rewrite (truediv_nonzero R p (10 ^ t) Nz).
    destruct (int_truediv R p (10 ^ t)) as [q |]; [| reflexivity].
    cbn [or_raise bind]. unfold getitem.
    rewrite lookup_setitem.
    change (String.eqb "Currency" "Price") with false.
    cbv beta iota. rewrite Lc. cbn [or_raise bind].
    rewrite (int0_str R _ _ Pc). cbn [bind].
    unfold delitem, contains. rewrite !lookup_setitem.
    change (String.eqb "TrailingDigits" "Currency") with false.
    change (String.eqb "TrailingDigits" "Price") with false.
    cbv beta iota. rewrite Lt. reflexivity. }
  split.
  - intros q Q. rewrite E, Q. cbn [or_raise bind]. eexists. split; [reflexivity |].
    unfold contains. rewrite !lookup_remove, !lookup_setitem.
    repeat split; reflexivity.
  - intros Q. rewrite E, Q. reflexivity.
Qed.

Lemma convert_price_value_witness :
  exists d', convert_price exact price_record = Ok d'
             /\ lookup exact "Price" d' = Some (VFloat exact (10 # 1)%Q)
             /\ lookup exact "Currency" d' = Some (VInt 840)
             /\ contains exact "TrailingDigits" d' = false.
Proof.
  apply (convert_price_value exact price_record "0x3E8" "0x2" "0x348" 1000 2 840);
    try reflexivity.
  lia.
Defined.

(** ** Records no rule applies to *)

Lemma no_key_in_incl (R : runtime) (ks ks' : list string) (v : value R) :
  incl ks' ks -> no_key_in R ks v = true -> no_key_in R ks' v = true.
Proof.
  intros Sub.
  induction v as [ | b | n | x | s | t | l IHl | d IHd ] using (value_induction R);
    try reflexivity.
  - cbn [no_key_in]. rewrite !forallb_forall, Forall_forall in *.
    intros N e Ie. apply (IHl e Ie). apply (N e Ie).
  - cbn [no_key_in]. intros N. apply andb_true_iff in N. destruct N as [Nk Nc].
    rewrite forallb_forall in Nk, Nc. rewrite Forall_forall in IHd.
    apply andb_true_iff. split; apply forallb_forall.
    + intros k Ik. apply Nk. apply Sub. exact Ik.
    + intros [k x] I. destruct (IHd _ I) as [Px _]. apply Px. apply (Nc _ I).
Qed.

(** X15. A response in which no record, at any depth, has [Multiplier],
    [Price] or [TimeStamp], and whose lists hold objects only, is returned by
    [process_data] as it is. *)
Theorem plain_record_unchanged (R : runtime) (v : value R) :
  is_dict R v = true ->
  no_key_in R ["Multiplier"; "Price"; "TimeStamp"] v = true ->
  lists_hold_objects R v = true ->
  process_data R v = Ok v.
Proof.
  intros D N L. apply process_data_fixed; [exact D | | | exact L].
  - apply (no_key_in_incl R ["Multiplier"; "Price"; "TimeStamp"]); [| exact N].
    intros k [<- | []]. left. reflexivity.
  - apply (no_key_in_incl R ["Multiplier"; "Price"; "TimeStamp"]); [| exact N].
    intros k [<- | [<- | []]]; simpl; auto.
Qed.

Lemma plain_record_unchanged_witness :
  process_data exact plain_response = Ok plain_response.
Proof. apply (plain_record_unchanged exact plain_response); reflexivity. Defined.

Lemma convert_demand_uses_factor_witness :
  exists factor n_dec v n x,
    demand_factor exact demand_record = Ok factor
    /\ demand_n_dec exact demand_record = Ok n_dec
    /\ lookup exact "Demand" demand_record = Some v
    /\ decode_demand exact v = Ok n
    /\ scaled exact n factor n_dec = Ok x
    /\ lookup exact "Demand" [("Demand", VFloat exact (-1 # 4)%Q)] = Some x.
Proof. apply (convert_demand_uses_factor exact demand_record); reflexivity. Defined.

Lemma second_run_raises_witness :
  raises (process_data exact
            (VDict exact [("Price", VFloat exact (10 # 1)%Q); ("Currency", VInt 840)])).
Proof.
  apply (second_run_raises exact (VDict exact price_record)); reflexivity.
Defined.
